(** * Vehicle challan system: persistence operations, violation detector
      stub and challan document generator, embedded and verified.

    The development follows the Python sources:
    - [backend/database/crud.py] and [backend/database/models.py]
      (modules [Datetime], [Py], [Orm], [Crud]);
    - [backend/models/violation_detector.py] (module [Detector]);
    - [backend/utils/pdf_generator.py] (module [Pdf]);
    - the text utilities of [backend/models/plate_detector.py]
      (module [Plate]).
    Module [Samples] holds a few concrete worlds, module [Spec] the
    predicates the properties are stated with; the properties follow.

    Python objects are dynamically typed: a value is a [pyval], a dict and
    the attribute store of an ORM entity are finite maps from names to
    values.  Column values of type Float are IEEE binary64 numbers, as
    Python's [float] is.  The classes of [models.py] declare the columns:
    where [crud.py] names an attribute that its class does not declare,
    the call raises, and the embedding raises with it. *)

From Stdlib Require Import ZArith NArith Lia Bool List String Ascii.
From Stdlib Require Import Decimal DecimalFacts DecimalString DecimalZ DecimalN
  DecimalPos.
From Stdlib Require Import Floats.
From stdpp Require Import base option list gmap strings sorting.

Local Open Scope Z_scope.
Set Warnings "-register-all,-inexact-float".

(* ===================================================================== *)
(** ** Naive datetimes *)
(* ===================================================================== *)

Module Datetime.

(** [datetime.datetime] without time zone: the seven fields the Python
    object carries. *)
Record datetime := mkDatetime {
  year : Z; month : Z; day : Z;
  hour : Z; minute : Z; second : Z; microsecond : Z
}.

Definition is_leap (y : Z) : bool :=
  ((y mod 4 =? 0) && negb (y mod 100 =? 0)) || (y mod 400 =? 0).

Definition days_in_month (y m : Z) : Z :=
  if m =? 2 then (if is_leap y then 29 else 28)
  else if (m =? 4) || (m =? 6) || (m =? 9) || (m =? 11) then 30
  else 31.

(** The range checks of the [datetime] constructor (MINYEAR = 1,
    MAXYEAR = 9999). *)
Definition datetime_ok (d : datetime) : bool :=
  (1 <=? year d) && (year d <=? 9999) &&
  (1 <=? month d) && (month d <=? 12) &&
  (1 <=? day d) && (day d <=? days_in_month (year d) (month d)) &&
  (0 <=? hour d) && (hour d <=? 23) &&
  (0 <=? minute d) && (minute d <=? 59) &&
  (0 <=? second d) && (second d <=? 59) &&
  (0 <=? microsecond d) && (microsecond d <=? 999999).

(** Comparison of datetimes is the lexicographic comparison of their
    fields. *)
Definition fields (d : datetime) : list Z :=
  [year d; month d; day d; hour d; minute d; second d; microsecond d].

Fixpoint lex_compare (l1 l2 : list Z) : comparison :=
  match l1, l2 with
  | [], [] => Eq
  | [], _ :: _ => Lt
  | _ :: _, [] => Gt
  | x :: l1', y :: l2' =>
      match x ?= y with
      | Eq => lex_compare l1' l2'
      | c => c
      end
  end.

Definition compare (a b : datetime) : comparison :=
  lex_compare (fields a) (fields b).

(** [a <= b] *)
Definition leb (a b : datetime) : bool :=
  match compare a b with Gt => false | _ => true end.

(** [d.replace(hour=0, minute=0, second=0, microsecond=0)] *)
Definition replace_midnight (d : datetime) : datetime :=
  mkDatetime (year d) (month d) (day d) 0 0 0 0.

End Datetime.

Export Datetime(datetime, mkDatetime).

(* ===================================================================== *)
(** ** Python values *)
(* ===================================================================== *)

Module Py.

Inductive pyval :=
| VNone
| VBool (b : bool)
| VInt (z : Z)
| VFloat (f : float)
| VStr (s : string)
| VDatetime (d : datetime)
| VList (l : list pyval).

(** Truth value testing: [None], [False], zero of any numeric type, the
    empty string and the empty sequence are false; every other value,
    a datetime included, is true. *)
Definition truthy (v : pyval) : bool :=
  match v with
  | VNone => false
  | VBool b => b
  | VInt z => negb (z =? 0)
  | VFloat f => negb (f =? 0)%float
  | VStr s => negb (String.eqb s "")
  | VDatetime _ => true
  | VList l => match l with [] => false | _ :: _ => true end
  end.

(** [v is None] *)
Definition is_none (v : pyval) : bool :=
  match v with VNone => true | _ => false end.

(** [a or b] *)
Definition py_or (a b : pyval) : pyval := if truthy a then a else b.

(** [isinstance(v, (int, float))]; [bool] is a subclass of [int]. *)
Definition is_int_or_float (v : pyval) : bool :=
  match v with
  | VBool _ | VInt _ | VFloat _ => true
  | _ => false
  end.

(** [str(n)] for an [int]. *)
Definition str_int (z : Z) : string :=
  NilEmpty.string_of_int (Z.to_int z).

(** [int(s)] for a string of an optional minus sign and decimal digits;
    [None] stands for [ValueError]. *)
Definition int_of_str (s : string) : option Z :=
  match s with
  | EmptyString => None
  | String _ _ => Z.of_int <$> NilEmpty.int_of_string s
  end.

Fixpoint zeros (n : nat) : string :=
  match n with
  | O => EmptyString
  | S n' => String "0" (zeros n')
  end.

(** [s.zfill(width)]: zeros are inserted on the left up to [width]
    characters, after a leading sign if there is one; a string that is
    already that long is returned as it is. *)
Definition zfill (width : nat) (s : string) : string :=
  let pad := zeros (width - String.length s) in
  match s with
  | String c rest =>
      if (Ascii.eqb c "+" || Ascii.eqb c "-")%char
      then String c (pad ++ rest)
      else (pad ++ s)
  | EmptyString => pad
  end%string.

(** [d.strftime("%Y%m%d")]: year with century on four digits, month
    and day on two. *)
Definition strftime_Ymd (d : datetime) : string :=
  (zfill 4 (str_int (Datetime.year d)) ++
   zfill 2 (str_int (Datetime.month d)) ++
   zfill 2 (str_int (Datetime.day d)))%string.

(** [d.strftime("%Y-%m-%d %H:%M:%S")] *)
Definition strftime_Ymd_HMS (d : datetime) : string :=
  (zfill 4 (str_int (Datetime.year d)) ++ "-" ++
   zfill 2 (str_int (Datetime.month d)) ++ "-" ++
   zfill 2 (str_int (Datetime.day d)) ++ " " ++
   zfill 2 (str_int (Datetime.hour d)) ++ ":" ++
   zfill 2 (str_int (Datetime.minute d)) ++ ":" ++
   zfill 2 (str_int (Datetime.second d)))%string.

(** [float(z)], correctly rounded. *)
Definition float_of_Z (z : Z) : float :=
  SF2Prim (binary_normalize prec emax z 0 false).

End Py.

Export Py(pyval, VNone, VBool, VInt, VFloat, VStr, VDatetime, VList).

(* ===================================================================== *)
(** ** The session: tables, queries and the clock *)
(* ===================================================================== *)

Module Orm.

(** An entity (a row seen through the ORM) is its attribute store: the
    values of the attributes that were assigned to it or loaded into it.
    Uniqueness, NOT NULL and foreign-key constraints are the storage
    engine's and are not part of the model. *)
Abbreviation row := (gmap string pyval).

(** Reading a column attribute that was never assigned gives [None]. *)
Definition attr (r : row) (name : string) : pyval :=
  default VNone (r !! name).

(** [setattr(obj, field, value)] for each item of a dict, in turn. *)
Definition setattrs (obj : row) (items : list (string * pyval)) : row :=
  foldl (λ o kv, <[kv.1 := kv.2]> o) obj items.

Inductive table := Vehicles | ViolationTypes | Challans.

(** The three tables of [models.py], each a list of rows in storage
    order, and the AUTO_INCREMENT counter that gives a new challan its
    primary key. *)
Record Database := mkDatabase {
  vehicles : list row;
  violation_types : list row;
  challans : list row;
  challans_autoinc : Z
}.

Definition rows_of (t : table) (d : Database) : list row :=
  match t with
  | Vehicles => vehicles d
  | ViolationTypes => violation_types d
  | Challans => challans d
  end.

Definition set_rows (t : table) (l : list row) (d : Database) : Database :=
  match t with
  | Vehicles => mkDatabase l (violation_types d) (challans d) (challans_autoinc d)
  | ViolationTypes => mkDatabase (vehicles d) l (challans d) (challans_autoinc d)
  | Challans => mkDatabase (vehicles d) (violation_types d) l (challans_autoinc d)
  end.

(** *** SQL comparisons.  A comparison with NULL is not true. *)

Definition sql_eq (a b : pyval) : bool :=
  match a, b with
  | VInt x, VInt y => x =? y
  | VStr x, VStr y => String.eqb x y
  | VBool x, VBool y => Bool.eqb x y
  | VFloat x, VFloat y => (x =? y)%float
  | VDatetime x, VDatetime y =>
      match Datetime.compare x y with Eq => true | _ => false end
  | _, _ => false
  end.

(** [a >= b] *)
Definition sql_ge (a b : pyval) : bool :=
  match a, b with
  | VInt x, VInt y => y <=? x
  | VFloat x, VFloat y => (y <=? x)%float
  | VDatetime x, VDatetime y => Datetime.leb y x
  | _, _ => false
  end.

(** [a <= b] *)
Definition sql_le (a b : pyval) : bool := sql_ge b a.

(** *** Aggregates *)

(** [func.count(col)]: the number of rows whose [col] is not NULL. *)
Definition sql_count (col : string) (rows : list row) : Z :=
  Z.of_nat (length (filter (λ r, ¬ Py.is_none (attr r col)) rows)).

(** The numeric value a Float column holds. *)
Definition as_float (v : pyval) : option float :=
  match v with
  | VFloat f => Some f
  | VInt z => Some (Py.float_of_Z z)
  | _ => None
  end.

Definition float_total (l : list float) : option float :=
  match l with
  | [] => None
  | x :: l' => Some (foldl PrimFloat.add x l')
  end.

(** [func.sum(col)]: the sum of the values of [col] that are not NULL,
    and NULL when there is none. *)
Definition sql_sum (col : string) (rows : list row) : pyval :=
  match float_total (omap (λ r, as_float (attr r col)) rows) with
  | None => VNone
  | Some s => VFloat s
  end.

(** *** Ordering: [ORDER BY col DESC]; NULL sorts below every value. *)

Definition sort_key (col : string) (r : row) : option datetime :=
  match attr r col with
  | VDatetime d => Some d
  | _ => None
  end.

Definition key_leb (a b : option datetime) : bool :=
  match a, b with
  | None, _ => true
  | Some _, None => false
  | Some x, Some y => Datetime.leb x y
  end.

Definition desc_by (col : string) (r1 r2 : row) : Prop :=
  key_leb (sort_key col r2) (sort_key col r1).

Global Instance desc_by_dec col r1 r2 : Decision (desc_by col r1 r2).
Proof. unfold desc_by. apply _. Defined.

Definition order_by_desc (col : string) (rows : list row) : list row :=
  merge_sort (desc_by col) rows.

(** *** The world a call runs in: the database behind the session, and
    the system clock, of which [datetime.utcnow()] takes the successive
    readings. *)

Record World := mkWorld {
  db : Database;
  clock : nat → datetime;
  ticks : nat
}.

Definition M (A : Type) : Type := World → A * World.

Global Instance M_ret : MRet M := λ A a w, (a, w).
Global Instance M_bind : MBind M :=
  λ A B f m w, let '(a, w') := m w in f a w'.

Definition utcnow : M datetime :=
  λ w, (clock w (ticks w), mkWorld (db w) (clock w) (S (ticks w))).

(** [db.query(Entity)] *)
Definition query (t : table) : M (list row) :=
  λ w, (rows_of t (db w), w).

Definition modify_rows (t : table) (f : list row → list row) : M unit :=
  λ w, (tt, mkWorld (set_rows t (f (rows_of t (db w))) (db w))
                    (clock w) (ticks w)).

(** The flush of a modified entity at [db.commit()]:
    [UPDATE t SET items WHERE id = pk]. *)
Definition flush_update (t : table) (pk : pyval)
    (items : list (string * pyval)) : M unit :=
  modify_rows t
    (fmap (λ r, if sql_eq (attr r "id") pk then setattrs r items else r)).

(** [DELETE FROM t WHERE id = pk] *)
Definition flush_delete (t : table) (pk : pyval) : M unit :=
  modify_rows t (filter (λ r, ¬ sql_eq (attr r "id") pk)).

(** [db.delete(vehicle); db.commit()].  [models.py] declares
    [Vehicle.challans] with [cascade="all, delete-orphan"]: the challans
    whose [vehicle_id] is the vehicle's key go with it. *)
Definition delete_vehicle_cascade (vehicle : row) : M unit :=
  modify_rows Challans
    (filter (λ c, ¬ sql_eq (attr c "vehicle_id") (attr vehicle "id")));;
  flush_delete Vehicles (attr vehicle "id").

(** *** The classes of [models.py] *)

Definition class_name (t : table) : string :=
  match t with
  | Vehicles => "Vehicle"
  | ViolationTypes => "ViolationType"
  | Challans => "Challan"
  end.

(** The attributes a class body declares, its columns and then its
    relationships.  (What a class inherits from [Base] has other names
    than any that [crud.py] uses.) *)
Definition class_attributes (t : table) : list string :=
  match t with
  | Vehicles =>
      [ "id"; "registration_number"; "vehicle_type"; "owner_name";
        "owner_contact"; "owner_email"; "owner_address"; "chassis_number";
        "engine_number"; "manufacturing_year"; "color"; "fuel_type";
        "registration_date"; "created_at"; "updated_at"; "challans" ]
  | ViolationTypes =>
      [ "id"; "violation_code"; "violation_name"; "description";
        "fine_amount"; "penalty_points"; "is_active"; "created_at";
        "updated_at"; "challans" ]
  | Challans =>
      [ "id"; "challan_number"; "vehicle_id"; "violation_type_id";
        "violation_location"; "violation_latitude"; "violation_longitude";
        "violation_date"; "issued_by_officer"; "officer_id"; "issue_date";
        "fine_amount"; "additional_charges"; "total_amount"; "status";
        "payment_date"; "payment_method"; "transaction_id"; "remarks";
        "appeal_status"; "appeal_date"; "appeal_remarks"; "created_at";
        "updated_at"; "vehicle"; "violation_type" ]
  end%string.

(** [hasattr(Entity, name)] *)
Definition declares (t : table) (name : string) : bool :=
  existsb (String.eqb name) (class_attributes t).

(** *** Calls that may raise *)

(** The exceptions of the calls: [AttributeError] for an attribute that
    a class does not have, [TypeError] for a keyword that its constructor
    does not take. *)
Inductive exn :=
| AttributeError (cls attribute : string)
| TypeError (cls keyword : string).

(** A call that returns a value or raises, in a world that it may
    change before it does either. *)
Definition R (A : Type) : Type := World → (exn + A) * World.

Global Instance R_ret : MRet R := λ A a w, (inr a, w).
Global Instance R_bind : MBind R :=
  λ A B f m w,
    match m w with
    | (inl e, w') => (inl e, w')
    | (inr a, w') => f a w'
    end.

Definition raise {A : Type} (e : exn) : R A := λ w, (inl e, w).

(** A call that does not raise. *)
Definition lift {A : Type} (m : M A) : R A :=
  λ w, let '(a, w') := m w in (inr a, w').

(** [Entity.name], the column behind the attribute [name] of the class:
    [AttributeError] when the class has no such attribute. *)
Definition class_attr (t : table) (name : string) : R string :=
  if declares t name then mret name
  else raise (AttributeError (class_name t) name).

(** [Entity(name=value, ...)]: the constructor of a declarative class takes the
    keywords in turn, sets each one that is an attribute of the class
    and raises [TypeError] at the first one that is not. *)
Fixpoint set_keywords (t : table) (kwargs : list (string * pyval))
    (obj : row) : exn + row :=
  match kwargs with
  | [] => inr obj
  | (k, v) :: kwargs' =>
      if declares t k then set_keywords t kwargs' (<[k := v]> obj)
      else inl (TypeError (class_name t) k)
  end.

Definition construct (t : table) (kwargs : list (string * pyval)) : R row :=
  match set_keywords t kwargs ∅ with
  | inl e => raise e
  | inr obj => mret obj
  end.

(** [ORDER BY col]; NULL sorts above no value. *)
Definition asc_by (col : string) (r1 r2 : row) : Prop :=
  key_leb (sort_key col r1) (sort_key col r2).

Global Instance asc_by_dec col r1 r2 : Decision (asc_by col r1 r2).
Proof. unfold asc_by. apply _. Defined.

Definition order_by_asc (col : string) (rows : list row) : list row :=
  merge_sort (asc_by col) rows.

(** *** Grouping: [GROUP BY] puts together the rows that agree on every
    grouping column, NULL agreeing with NULL. *)

Definition same_key (a b : pyval) : bool :=
  match a, b with
  | VNone, VNone => true
  | _, _ => sql_eq a b
  end.

Definition same_group (cols : list string) (r1 r2 : row) : bool :=
  forallb (λ col, same_key (attr r1 col) (attr r2 col)) cols.

(** A group is its first row and all its rows.  [add_to_groups] puts a
    row into the group it agrees with, or opens a new group after the
    others. *)
Fixpoint add_to_groups (cols : list string) (r : row)
    (groups : list (row * list row)) : list (row * list row) :=
  match groups with
  | [] => [(r, [r])]
  | (rep, members) :: groups' =>
      if same_group cols rep r
      then (rep, members ++ [r]) :: groups'
      else (rep, members) :: add_to_groups cols r groups'
  end.

Definition group_by (cols : list string) (rows : list row)
    : list (row * list row) :=
  foldl (λ groups r, add_to_groups cols r groups) [] rows.

End Orm.

Export Orm(row, attr, Database, mkDatabase, World, mkWorld).

(* ===================================================================== *)
(** ** [crud.py] *)
(* ===================================================================== *)

Module Crud.
Import Orm.
Local Open Scope string_scope.

(** [Query.first()] *)
Definition first (q : list row) : option row := head q.

(** The fields of the [ChallanCreate] request that [create_challan]
    reads. *)
Record ChallanCreate := mkChallanCreate {
  cc_violation_type_id : pyval;
  cc_location : pyval;
  cc_description : pyval;
  cc_fine_amount : pyval;
  cc_status : pyval
}.

(** The fields of the [VehicleCreate] and [ViolationTypeCreate] requests
    that [create_vehicle] and [create_violation_type] read. *)
Record VehicleCreate := mkVehicleCreate {
  vc_registration_number : pyval;
  vc_vehicle_type : pyval;
  vc_make : pyval;
  vc_model : pyval;
  vc_year : pyval;
  vc_color : pyval;
  vc_status : pyval
}.

Record ViolationTypeCreate := mkViolationTypeCreate {
  vtc_code : pyval;
  vtc_description : pyval;
  vtc_severity : pyval;
  vtc_fine_amount : pyval;
  vtc_points : pyval
}.

(** *** Vehicles *)

Definition get_vehicle (vehicle_id : Z) : M (option row) :=
  q ← query Vehicles;
  mret (first (filter (λ v, sql_eq (attr v "id") (VInt vehicle_id)) q)).

Definition get_vehicle_by_registration (registration_number : string)
    : M (option row) :=
  q ← query Vehicles;
  mret (first (filter
    (λ v, sql_eq (attr v "registration_number") (VStr registration_number))
    q)).

(** [vehicle_update] is [vehicle_update.dict(exclude_unset=True)]: the
    fields the caller has set. *)
Definition update_vehicle (vehicle_id : Z)
    (vehicle_update : gmap string pyval) : M (option row) :=
  q ← query Vehicles;
  match first (filter (λ v, sql_eq (attr v "id") (VInt vehicle_id)) q) with
  | None => mret None
  | Some db_vehicle =>
      now ← utcnow;
      let update_data := <["updated_at" := VDatetime now]> vehicle_update in
      let items := map_to_list update_data in
      flush_update Vehicles (attr db_vehicle "id") items;;
      mret (Some (setattrs db_vehicle items))
  end.

Definition delete_vehicle (vehicle_id : Z) : M bool :=
  q ← query Vehicles;
  match first (filter (λ v, sql_eq (attr v "id") (VInt vehicle_id)) q) with
  | None => mret false
  | Some db_vehicle =>
      delete_vehicle_cascade db_vehicle;;
      mret true
  end.

(** *** Violation types *)

Definition get_violation_type (violation_type_id : Z) : M (option row) :=
  q ← query ViolationTypes;
  mret (first
    (filter (λ v, sql_eq (attr v "id") (VInt violation_type_id)) q)).

Definition update_violation_type (violation_type_id : Z)
    (violation_type_update : gmap string pyval) : M (option row) :=
  q ← query ViolationTypes;
  match first
    (filter (λ v, sql_eq (attr v "id") (VInt violation_type_id)) q) with
  | None => mret None
  | Some db_violation_type =>
      now ← utcnow;
      let update_data :=
        <["updated_at" := VDatetime now]> violation_type_update in
      let items := map_to_list update_data in
      flush_update ViolationTypes (attr db_violation_type "id") items;;
      mret (Some (setattrs db_violation_type items))
  end.

(** *** Challans *)

Definition get_challan (challan_id : Z) : M (option row) :=
  q ← query Challans;
  mret (first (filter (λ c, sql_eq (attr c "id") (VInt challan_id)) q)).

Definition get_challan_by_number (challan_number : string)
    : M (option row) :=
  q ← query Challans;
  mret (first (filter
    (λ c, sql_eq (attr c "challan_number") (VStr challan_number)) q)).

(** [skip] and [limit] are the OFFSET and LIMIT of the statement, which
    the storage engine takes non-negative.  Each filter and the ordering
    name their column as an attribute of the class [Challan]. *)
Definition get_challans (skip limit : nat)
    (vehicle_id status officer_id date_from date_to : pyval)
    : R (list row) :=
  q ← lift (query Challans);
  q ← (if Py.truthy vehicle_id
       then col ← class_attr Challans "vehicle_id";
            mret (filter (λ c, sql_eq (attr c col) vehicle_id) q)
       else mret q);
  q ← (if Py.truthy status
       then col ← class_attr Challans "status";
            mret (filter (λ c, sql_eq (attr c col) status) q)
       else mret q);
  q ← (if Py.truthy officer_id
       then col ← class_attr Challans "officer_id";
            mret (filter (λ c, sql_eq (attr c col) officer_id) q)
       else mret q);
  q ← (if Py.truthy date_from
       then col ← class_attr Challans "issued_date";
            mret (filter (λ c, sql_ge (attr c col) date_from) q)
       else mret q);
  q ← (if Py.truthy date_to
       then col ← class_attr Challans "issued_date";
            mret (filter (λ c, sql_le (attr c col) date_to) q)
       else mret q);
  col ← class_attr Challans "issued_date";
  mret (take limit (drop skip (order_by_desc col q))).

Definition generate_challan_number : M string :=
  t ← utcnow;
  let date_str := Py.strftime_Ymd t in
  t' ← utcnow;
  q ← query Challans;
  let count :=
    sql_count "id"
      (filter (λ c, sql_ge (attr c "created_at")
                           (VDatetime (Datetime.replace_midnight t'))) q) in
  let serial := Py.zfill 5 (Py.str_int (count + 1)) in
  mret ("CH-" ++ date_str ++ "-" ++ serial).

(** The keywords of the call [Challan(...)] in [create_challan], in the
    order they are written; [issued] and [created] are the two readings
    of the clock among them. *)
Definition challan_keywords (challan_number : string)
    (challan : ChallanCreate) (vehicle_id officer_id : Z)
    (issued created : datetime) : list (string * pyval) :=
  [ ("challan_number", VStr challan_number);
    ("vehicle_id", VInt vehicle_id);
    ("violation_type_id", cc_violation_type_id challan);
    ("officer_id", VInt officer_id);
    ("issued_date", VDatetime issued);
    ("location", cc_location challan);
    ("description", cc_description challan);
    ("fine_amount", cc_fine_amount challan);
    ("status", Py.py_or (cc_status challan) (VStr "pending"));
    ("created_at", VDatetime created) ].

Definition vehicle_keywords (vehicle : VehicleCreate) (owner_id : Z)
    (created : datetime) : list (string * pyval) :=
  [ ("registration_number", vc_registration_number vehicle);
    ("vehicle_type", vc_vehicle_type vehicle);
    ("owner_id", VInt owner_id);
    ("make", vc_make vehicle);
    ("model", vc_model vehicle);
    ("year", vc_year vehicle);
    ("color", vc_color vehicle);
    ("status", Py.py_or (vc_status vehicle) (VStr "active"));
    ("created_at", VDatetime created) ].

Definition violation_type_keywords (violation_type : ViolationTypeCreate)
    (created : datetime) : list (string * pyval) :=
  [ ("code", vtc_code violation_type);
    ("description", vtc_description violation_type);
    ("severity", vtc_severity violation_type);
    ("fine_amount", vtc_fine_amount violation_type);
    ("points", Py.py_or (vtc_points violation_type) (VInt 0));
    ("created_at", VDatetime created) ].

Section create.
(** [db.add(obj); db.commit(); db.refresh(obj)]: the INSERT of the new
    row and its reading back, with the defaults, the constraints and the
    key that the storage engine gives it. *)
Variable insert : table → row → R row.

Definition create_vehicle (vehicle : VehicleCreate) (owner_id : Z)
    : R row :=
  created ← lift utcnow;
  db_vehicle ← construct Vehicles (vehicle_keywords vehicle owner_id created);
  insert Vehicles db_vehicle.

Definition create_violation_type (violation_type : ViolationTypeCreate)
    : R row :=
  created ← lift utcnow;
  db_violation_type ←
    construct ViolationTypes
              (violation_type_keywords violation_type created);
  insert ViolationTypes db_violation_type.

Definition create_challan (challan : ChallanCreate)
    (vehicle_id officer_id : Z) : R row :=
  challan_number ← lift generate_challan_number;
  issued ← lift utcnow;
  created ← lift utcnow;
  db_challan ←
    construct Challans
              (challan_keywords challan_number challan vehicle_id officer_id
                                issued created);
  insert Challans db_challan.
End create.

Definition update_challan (challan_id : Z)
    (challan_update : gmap string pyval) : M (option row) :=
  q ← query Challans;
  match first (filter (λ c, sql_eq (attr c "id") (VInt challan_id)) q) with
  | None => mret None
  | Some db_challan =>
      now ← utcnow;
      let update_data := <["updated_at" := VDatetime now]> challan_update in
      let items := map_to_list update_data in
      flush_update Challans (attr db_challan "id") items;;
      mret (Some (setattrs db_challan items))
  end.

(** *** Statistics *)

Definition get_dashboard_statistics : M (gmap string pyval) :=
  qv ← query Vehicles;
  let total_vehicles := VInt (sql_count "id" qv) in
  qc ← query Challans;
  let total_challans := VInt (sql_count "id" qc) in
  let pending_challans :=
    VInt (sql_count "id"
            (filter (λ c, sql_eq (attr c "status") (VStr "pending")) qc)) in
  let total_revenue :=
    sql_sum "fine_amount"
            (filter (λ c, sql_eq (attr c "status") (VStr "paid")) qc) in
  mret (<["total_vehicles" := Py.py_or total_vehicles (VInt 0)]>
        (<["total_challans" := Py.py_or total_challans (VInt 0)]>
        (<["pending_challans" := Py.py_or pending_challans (VInt 0)]>
        (<["total_revenue" := Py.py_or total_revenue (VFloat 0)]> ∅)))).

(** *** The other listings, deletions and statistics *)

Definition get_vehicles (skip limit : nat) (owner_id status : pyval)
    : R (list row) :=
  q ← lift (query Vehicles);
  q ← (if Py.truthy owner_id
       then col ← class_attr Vehicles "owner_id";
            mret (filter (λ v, sql_eq (attr v col) owner_id) q)
       else mret q);
  q ← (if Py.truthy status
       then col ← class_attr Vehicles "status";
            mret (filter (λ v, sql_eq (attr v col) status) q)
       else mret q);
  mret (take limit (drop skip q)).

Definition get_violation_type_by_code (code : string) : R (option row) :=
  q ← lift (query ViolationTypes);
  col ← class_attr ViolationTypes "code";
  mret (first (filter (λ v, sql_eq (attr v col) (VStr code)) q)).

Definition get_violation_types (skip limit : nat) (severity : pyval)
    : R (list row) :=
  q ← lift (query ViolationTypes);
  q ← (if Py.truthy severity
       then col ← class_attr ViolationTypes "severity";
            mret (filter (λ v, sql_eq (attr v col) severity) q)
       else mret q);
  mret (take limit (drop skip q)).

(** A challan owns no other row: deleting it deletes it alone. *)
Definition delete_challan (challan_id : Z) : M bool :=
  q ← query Challans;
  match first (filter (λ c, sql_eq (attr c "id") (VInt challan_id)) q) with
  | None => mret false
  | Some db_challan =>
      flush_delete Challans (attr db_challan "id");;
      mret true
  end.

Definition get_vehicle_challans_count (vehicle_id : Z) : M Z :=
  q ← query Challans;
  mret (sql_count "id"
          (filter (λ c, sql_eq (attr c "vehicle_id") (VInt vehicle_id)) q)).

Definition get_vehicle_total_fine (vehicle_id : Z) : M pyval :=
  q ← query Challans;
  let result :=
    sql_sum "fine_amount"
      (filter (λ c, sql_eq (attr c "vehicle_id") (VInt vehicle_id)) q) in
  mret (Py.py_or result (VFloat 0)).

(** The join of a violation type with its challans is on the foreign
    key [Challan.violation_type_id]; [func.count(Challan.id)] counts the
    challans joined to the types of a group. *)
Definition joined_challans (violation_type : row) (challans : list row)
    : list row :=
  filter (λ c, sql_eq (attr c "violation_type_id") (attr violation_type "id"))
         challans.

(** The columns are named, as attributes of their classes, in the
    order the statement is written: those selected, then those grouped
    by. *)
Definition get_violation_type_statistics : R (list (gmap string pyval)) :=
  code ← class_attr ViolationTypes "code";
  description ← class_attr ViolationTypes "description";
  challan_id ← class_attr Challans "id";
  group_id ← class_attr ViolationTypes "id";
  group_code ← class_attr ViolationTypes "code";
  group_description ← class_attr ViolationTypes "description";
  qv ← lift (query ViolationTypes);
  qc ← lift (query Challans);
  let results :=
    (λ g : row * list row,
       (attr g.1 code, attr g.1 description,
        foldr Z.add 0
          ((λ v, sql_count challan_id (joined_challans v qc)) <$> g.2)))
      <$> group_by [group_id; group_code; group_description] qv in
  mret ((λ result : pyval * pyval * Z,
           <["code" := result.1.1]>
           (<["description" := result.1.2]>
           (<["challan_count" := VInt result.2]> ∅))) <$> results).

Definition get_pending_challans (limit : nat) : R (list row) :=
  q ← lift (query Challans);
  status ← class_attr Challans "status";
  let q := filter (λ c, sql_eq (attr c status) (VStr "pending")) q in
  col ← class_attr Challans "issued_date";
  mret (take limit (order_by_asc col q)).

Definition get_paid_challans_count (start_date : pyval) : R Z :=
  q ← lift (query Challans);
  challan_id ← class_attr Challans "id";
  status ← class_attr Challans "status";
  let q := filter (λ c, sql_eq (attr c status) (VStr "paid")) q in
  q ← (if Py.truthy start_date
       then col ← class_attr Challans "issued_date";
            mret (filter (λ c, sql_ge (attr c col) start_date) q)
       else mret q);
  mret (sql_count challan_id q).

End Crud.

(* ===================================================================== *)
(** ** [violation_detector.py] *)
(* ===================================================================== *)

Module Detector.

Inductive ViolationType :=
| HELMET_NOT_WORN
| SEAT_BELT_NOT_WORN
| TRIPLING
| NONE.

(** [(x1, y1, x2, y2)] *)
Definition bbox : Type := Z * Z * Z * Z.

Record ViolationDetection := mkViolationDetection {
  violation_type : ViolationType;
  confidence : float;
  location : bbox;
  timestamp : datetime;
  vehicle_id : option string;
  additional_info : option (gmap string pyval)
}.

Record ViolationDetector := mkViolationDetector {
  confidence_threshold : float;
  violation_history : list ViolationDetection
}.

(** [ViolationDetector(confidence_threshold=0.6)] *)
Definition init (confidence_threshold : float) : ViolationDetector :=
  mkViolationDetector confidence_threshold [].

Section detect.
(** The image frame, which no method looks at. *)
Context {Frame : Type}.

(** Each method takes the reading [now] of [datetime.utcnow()] that
    stamps its candidate record. *)

Definition helmet_candidate (vehicle_region : bbox) (now : datetime)
    : ViolationDetection :=
  mkViolationDetection HELMET_NOT_WORN 0%float vehicle_region now
                       None None.

Definition detect_helmet_violation (self : ViolationDetector)
    (frame : Frame) (vehicle_region : bbox) (now : datetime)
    : option ViolationDetection :=
  let violation := helmet_candidate vehicle_region now in
  if (confidence_threshold self <=? confidence violation)%float
  then Some violation else None.

Definition seat_belt_candidate (vehicle_region : bbox) (now : datetime)
    : ViolationDetection :=
  mkViolationDetection SEAT_BELT_NOT_WORN 0%float vehicle_region now
                       None None.

Definition detect_seat_belt_violation (self : ViolationDetector)
    (frame : Frame) (vehicle_region : bbox) (now : datetime)
    : option ViolationDetection :=
  let violation := seat_belt_candidate vehicle_region now in
  if (confidence_threshold self <=? confidence violation)%float
  then Some violation else None.

Definition tripling_candidate (vehicle_region : bbox) (now : datetime)
    : ViolationDetection :=
  mkViolationDetection TRIPLING 0%float vehicle_region now None
                       (Some {[ "occupant_count"%string := VInt 0 ]}).

Definition detect_tripling_violation (self : ViolationDetector)
    (frame : Frame) (vehicle_region : bbox) (now : datetime)
    : option ViolationDetection :=
  let violation := tripling_candidate vehicle_region now in
  if (confidence_threshold self <=? confidence violation)%float
  then Some violation else None.

(** [if v: violations.append(v)]: a record is true, [None] is not. *)
Definition append_if (violations : list ViolationDetection)
    (v : option ViolationDetection) : list ViolationDetection :=
  match v with
  | Some x => violations ++ [x]
  | None => violations
  end.

(** Returns the list of violations and the detector with its history
    extended; [now1], [now2], [now3] are the clock readings of the
    three detections. *)
Definition detect_all_violations (self : ViolationDetector)
    (frame : Frame) (vehicle_region : bbox) (now1 now2 now3 : datetime)
    : list ViolationDetection * ViolationDetector :=
  let violations := [] in
  let violations :=
    append_if violations
      (detect_helmet_violation self frame vehicle_region now1) in
  let violations :=
    append_if violations
      (detect_seat_belt_violation self frame vehicle_region now2) in
  let violations :=
    append_if violations
      (detect_tripling_violation self frame vehicle_region now3) in
  (violations,
   mkViolationDetector (confidence_threshold self)
                       (violation_history self ++ violations)).
End detect.

Global Instance ViolationType_eq_dec : EqDecision ViolationType.
Proof. solve_decision. Defined.

(** [d.get(key, default)] for a dictionary written as a literal with the
    violation types as keys. *)
Fixpoint dict_get {V : Type} (d : list (ViolationType * V))
    (key : ViolationType) (default : V) : V :=
  match d with
  | [] => default
  | (k, v) :: d' => if decide (k = key) then v else dict_get d' key default
  end.

Definition get_violation_severity (self : ViolationDetector)
    (violation : ViolationDetection) : string :=
  let severity_map :=
    [ (HELMET_NOT_WORN, "critical"); (SEAT_BELT_NOT_WORN, "high");
      (TRIPLING, "critical"); (NONE, "none") ]%string in
  dict_get severity_map (violation_type violation) "low"%string.

Definition get_violation_fine (self : ViolationDetector)
    (violation : ViolationType) : Z :=
  let fine_map :=
    [ (HELMET_NOT_WORN, 500); (SEAT_BELT_NOT_WORN, 1000);
      (TRIPLING, 500); (NONE, 0) ] in
  dict_get fine_map violation 0.

Definition clear_history (self : ViolationDetector) : ViolationDetector :=
  mkViolationDetector (confidence_threshold self) [].

(** [self.violation_history.copy()] *)
Definition get_history (self : ViolationDetector)
    : list ViolationDetection :=
  violation_history self.

(** Raises [ValueError] with the message on the left, or returns the
    detector with the new threshold. *)
Definition set_confidence_threshold (self : ViolationDetector)
    (threshold : float) : string + ViolationDetector :=
  if negb ((0 <=? threshold)%float && (threshold <=? 1)%float)
  then inl "Confidence threshold must be between 0 and 1"%string
  else inr (mkViolationDetector threshold (violation_history self)).

End Detector.

(* ===================================================================== *)
(** ** [pdf_generator.py] *)
(* ===================================================================== *)

Module Pdf.
Local Open Scope string_scope.
Local Open Scope list_scope.

(** *** The story handed to the layout library *)

(** The content of a paragraph or of a table cell: a literal, a value
    of the data dictionary, or the f-string of the rupee sign followed
    by a value. *)
Inductive content :=
| CText (s : string)
| CValue (v : pyval)
| CRupee (v : pyval).

Inductive table_style := StandardStyle | AmountStyle | SignatureStyle.

Inductive flowable :=
| Paragraph (text : content) (style : string)
| Spacer (width height : float)
| Table (data : list (list content)) (colWidths : list float)
        (style : table_style).

Definition inch : float := 72%float.

Record PDFGenerator := mkPDFGenerator {
  title : string;
  logo_path : option string
}.

(** [str.upper()] for a string of ASCII characters: the small letters
    become capitals.  (On other characters Python's method does more; a
    statement that depends on the capitals of a title takes the title
    to be ASCII.) *)
Definition upper_char (c : ascii) : ascii :=
  let n := nat_of_ascii c in
  if ((97 <=? n) && (n <=? 122))%nat then ascii_of_nat (n - 32) else c.

Fixpoint upper (s : string) : string :=
  match s with
  | EmptyString => EmptyString
  | String c s' => String (upper_char c) (upper s')
  end.

(** [data.get(key, dflt)] *)
Definition get (data : gmap string pyval) (key : string) (dflt : pyval)
    : pyval :=
  default dflt (data !! key).

Definition std_widths : list float := [(2.5 * inch)%float; (4 * inch)%float].

Definition _create_challan_header (self : PDFGenerator) : list flowable :=
  [ Paragraph (CText (upper (title self))) "CustomTitle";
    Paragraph (CText "TRAFFIC VIOLATION CHALLAN") "SectionHeading" ].

Definition _create_challan_details_section (data : gmap string pyval)
    : list flowable :=
  [ Paragraph (CText "Challan Details") "SectionHeading";
    Table
      [ [CText "Challan Number"; CValue (get data "challan_number" (VStr "N/A"))];
        [CText "Date Issued"; CValue (get data "date" (VStr "N/A"))];
        [CText "Location"; CValue (get data "location" (VStr "N/A"))];
        [CText "Officer ID"; CValue (get data "officer_id" (VStr "N/A"))] ]
      std_widths StandardStyle ].

Definition _create_vehicle_info_section (data : gmap string pyval)
    : list flowable :=
  [ Paragraph (CText "Vehicle Information") "SectionHeading";
    Table
      [ [CText "Vehicle Number"; CValue (get data "vehicle_number" (VStr "N/A"))];
        [CText "Owner Name"; CValue (get data "owner_name" (VStr "N/A"))];
        [CText "Contact Number"; CValue (get data "contact_number" (VStr "N/A"))];
        [CText "Address"; CValue (get data "address" (VStr "N/A"))] ]
      std_widths StandardStyle ].

Definition _create_violation_section (data : gmap string pyval)
    : list flowable :=
  [ Paragraph (CText "Violation Details") "SectionHeading";
    Table
      [ [CText "Violation Type"; CValue (get data "violation_type" (VStr "N/A"))];
        [CText "Description"; CValue (get data "violation_description" (VStr "N/A"))];
        [CText "Section"; CValue (get data "section" (VStr "N/A"))];
        [CText "Remarks"; CValue (get data "remarks" (VStr ""))] ]
      std_widths StandardStyle ].

Definition _create_amount_section (data : gmap string pyval)
    : list flowable :=
  let elements :=
    [ Paragraph (CText "Amount Due") "SectionHeading";
      Table
        [ [CText "Base Fine"; CRupee (get data "base_fine" (VInt 0))];
          [CText "Additional Fine"; CRupee (get data "additional_fine" (VInt 0))];
          [CText "Total Amount"; CRupee (get data "amount" (VInt 0))];
          [CText "Due Date"; CValue (get data "due_date" (VStr "N/A"))] ]
        std_widths AmountStyle ] in
  if Py.truthy (get data "notes" VNone)
  then elements ++
       [ Spacer 1 (0.2 * inch);
         Paragraph (CText "Notes:") "FieldLabel";
         Paragraph (CValue (get data "notes" (VStr ""))) "FieldValue" ]
  else elements.

Definition _create_signature_section : list flowable :=
  [ Spacer 1 (0.3 * inch);
    Table
      [ [CText "Issued By"; CText ""; CText "Acknowledged By"];
        [CText "________________"; CText ""; CText "________________"];
        [CText "Officer Signature"; CText ""; CText "Owner/Driver Signature"] ]
      [(2 * inch)%float; (0.5 * inch)%float; (2 * inch)%float]
      SignatureStyle ].

(** *** Challan generation *)

Definition required_fields : list string :=
  [ "challan_number"; "date"; "vehicle_number"; "owner_name";
    "violation_description"; "amount"; "location" ].

(** [repr] of a list of strings that need no escaping. *)
Definition repr_str (s : string) : string := "'" +:+ s +:+ "'".

Fixpoint join (sep : string) (l : list string) : string :=
  match l with
  | [] => ""
  | [s] => s
  | s :: l' => s +:+ sep +:+ join sep l'
  end.

Definition repr_list (l : list string) : string :=
  "[" +:+ join ", " (repr_str <$> l) +:+ "]".

(** What a call does: it raises [ValueError] with a message, or it
    returns, [value] being the bytes returned (or [None]) and [written]
    the file the document was saved to, if any. *)
Inductive outcome :=
| RaiseValueError (msg : string)
| Return (value : option (list Byte.byte))
         (written : option (string * list Byte.byte)).

(** [field in data] *)
Definition contains (data : gmap string pyval) (field : string) : bool :=
  bool_decide (is_Some (data !! field)).

Section generate.
(** [SimpleDocTemplate(..).build(story)] of the layout library, with
    the page size and margins of the class: the bytes of the document
    it lays out. *)
Variable build : list flowable → list Byte.byte.

Definition challan_story (self : PDFGenerator)
    (challan_data : gmap string pyval) : list flowable :=
  let story := [] in
  let story := story ++ _create_challan_header self in
  let story := story ++ [Spacer 1 (0.2 * inch)] in
  let story := story ++ _create_challan_details_section challan_data in
  let story := story ++ [Spacer 1 (0.2 * inch)] in
  let story := story ++ _create_vehicle_info_section challan_data in
  let story := story ++ [Spacer 1 (0.2 * inch)] in
  let story := story ++ _create_violation_section challan_data in
  let story := story ++ [Spacer 1 (0.3 * inch)] in
  let story := story ++ _create_amount_section challan_data in
  let story := story ++ [Spacer 1 (0.3 * inch)] in
  let story := story ++ _create_signature_section in
  story.

(** [output_path] is [None] or a string; the empty string is false
    as [None] is. *)
Definition generate_challan_pdf (self : PDFGenerator)
    (challan_data : gmap string pyval) (output_path : option string)
    : outcome :=
  if negb (forallb (contains challan_data) required_fields)
  then RaiseValueError
         ("Missing required fields. Required: " +:+ repr_list required_fields)
  else
    let document := build (challan_story self challan_data) in
    match output_path with
    | Some path =>
        if negb (String.eqb path "")
        then Return None (Some (path, document))
        else Return (Some document) None
    | None => Return (Some document) None
    end.
End generate.

(** Modelled from the spec: the layout library behind
    [SimpleDocTemplate(...).build(story)] (reportlab), which is not under
    src/.  The spec has a successful generation return "a non-empty byte
    stream": the document is a PDF file, which begins with the marker
    [%PDF-]; [render] gives the bytes that follow it. *)
Definition pdf_marker : list Byte.byte :=
  [Byte.x25; Byte.x50; Byte.x44; Byte.x46; Byte.x2d].

Definition pdf_document (render : list flowable → list Byte.byte)
    (story : list flowable) : list Byte.byte :=
  pdf_marker ++ render story.

(** *** Validation *)

Definition required_labels : list (string * string) :=
  [ ("challan_number", "Challan Number");
    ("date", "Date");
    ("vehicle_number", "Vehicle Number");
    ("owner_name", "Owner Name");
    ("violation_description", "Violation Description");
    ("amount", "Amount");
    ("location", "Location") ].

(** [field not in data or not data[field]] *)
Definition missing_or_falsy (data : gmap string pyval) (field : string)
    : bool :=
  match data !! field with
  | None => true
  | Some v => negb (Py.truthy v)
  end.

Definition validate_challan_data (data : gmap string pyval)
    : bool * list string :=
  let errors := [] in
  let errors :=
    foldl (λ errors fl,
             if missing_or_falsy data fl.1
             then errors ++ [fl.2 +:+ " is required"]
             else errors)
          errors required_labels in
  let errors :=
    if Py.truthy (get data "amount" VNone) &&
       negb (Py.is_int_or_float (get data "amount" VNone))
    then errors ++ ["Amount must be a number"]
    else errors in
  (Nat.eqb (length errors) 0, errors).

(** *** Receipts *)

Definition _create_receipt_header (self : PDFGenerator) : list flowable :=
  [ Paragraph (CText (upper (title self))) "CustomTitle";
    Paragraph (CText "PAYMENT RECEIPT") "SectionHeading" ].

Definition _create_receipt_details_section (data : gmap string pyval)
    : list flowable :=
  [ Paragraph (CText "Receipt Information") "SectionHeading";
    Table
      [ [CText "Receipt Number"; CValue (get data "receipt_number" (VStr "N/A"))];
        [CText "Challan Number"; CValue (get data "challan_number" (VStr "N/A"))];
        [CText "Date"; CValue (get data "date" (VStr "N/A"))];
        [CText "Transaction ID"; CValue (get data "transaction_id" (VStr "N/A"))] ]
      std_widths StandardStyle ].

Definition _create_payment_info_section (data : gmap string pyval)
    : list flowable :=
  [ Paragraph (CText "Payment Information") "SectionHeading";
    Table
      [ [CText "Vehicle Number"; CValue (get data "vehicle_number" (VStr "N/A"))];
        [CText "Owner Name"; CValue (get data "owner_name" (VStr "N/A"))];
        [CText "Payment Method"; CValue (get data "payment_method" (VStr "N/A"))];
        [CText "Amount Paid"; CRupee (get data "amount" (VInt 0))] ]
      std_widths StandardStyle ].

Definition _create_challan_reference_section (data : gmap string pyval)
    : list flowable :=
  [ Paragraph (CText "Challan Reference") "SectionHeading";
    Table
      [ [CText "Original Amount"; CRupee (get data "original_amount" (VInt 0))];
        [CText "Amount Paid"; CRupee (get data "amount" (VInt 0))];
        [CText "Remaining Balance"; CRupee (get data "balance" (VInt 0))];
        [CText "Payment Status"; CValue (get data "status" (VStr "Completed"))] ]
      std_widths StandardStyle ].

(** [now] is the reading of [datetime.now()]. *)
Definition _create_receipt_footer (now : datetime) : list flowable :=
  let footer_text :=
    "Generated on " +:+ Py.strftime_Ymd_HMS now +:+
    " | Please retain this receipt for your records" in
  [ Paragraph (CText footer_text) "Normal" ].

Definition receipt_required_fields : list string :=
  [ "receipt_number"; "challan_number"; "date"; "amount";
    "payment_method"; "vehicle_number"; "owner_name" ].

Section generate_receipt.
Variable build : list flowable → list Byte.byte.

Definition receipt_story (self : PDFGenerator)
    (receipt_data : gmap string pyval) (now : datetime) : list flowable :=
  let story := [] in
  let story := story ++ _create_receipt_header self in
  let story := story ++ [Spacer 1 (0.2 * inch)] in
  let story := story ++ _create_receipt_details_section receipt_data in
  let story := story ++ [Spacer 1 (0.2 * inch)] in
  let story := story ++ _create_payment_info_section receipt_data in
  let story := story ++ [Spacer 1 (0.2 * inch)] in
  let story := story ++ _create_challan_reference_section receipt_data in
  let story := story ++ [Spacer 1 (0.3 * inch)] in
  let story := story ++ _create_receipt_footer now in
  story.

Definition generate_receipt_pdf (self : PDFGenerator)
    (receipt_data : gmap string pyval) (output_path : option string)
    (now : datetime) : outcome :=
  if negb (forallb (contains receipt_data) receipt_required_fields)
  then RaiseValueError
         ("Missing required fields. Required: " +:+
          repr_list receipt_required_fields)
  else
    let document := build (receipt_story self receipt_data now) in
    match output_path with
    | Some path =>
        if negb (String.eqb path "")
        then Return None (Some (path, document))
        else Return (Some document) None
    | None => Return (Some document) None
    end.

(** The module's functions [generate_challan] and [generate_receipt]
    use a generator with the default title and no logo. *)
Definition default_generator : PDFGenerator :=
  mkPDFGenerator "Vehicle Challan System" None.

Definition generate_challan (challan_data : gmap string pyval)
    (output_path : option string) : outcome :=
  let generator := default_generator in
  generate_challan_pdf build generator challan_data output_path.

Definition generate_receipt (receipt_data : gmap string pyval)
    (output_path : option string) (now : datetime) : outcome :=
  let generator := default_generator in
  generate_receipt_pdf generator receipt_data output_path now.
End generate_receipt.

Definition receipt_required_labels : list (string * string) :=
  [ ("receipt_number", "Receipt Number");
    ("challan_number", "Challan Number");
    ("date", "Date");
    ("amount", "Amount");
    ("payment_method", "Payment Method");
    ("vehicle_number", "Vehicle Number");
    ("owner_name", "Owner Name") ].

Definition validate_receipt_data (data : gmap string pyval)
    : bool * list string :=
  let errors := [] in
  let errors :=
    foldl (λ errors fl,
             if missing_or_falsy data fl.1
             then errors ++ [fl.2 +:+ " is required"]
             else errors)
          errors receipt_required_labels in
  let errors :=
    if Py.truthy (get data "amount" VNone) &&
       negb (Py.is_int_or_float (get data "amount" VNone))
    then errors ++ ["Amount must be a number"]
    else errors in
  (Nat.eqb (length errors) 0, errors).

End Pdf.

(* ===================================================================== *)
(** ** [plate_detector.py]: the text utilities *)
(* ===================================================================== *)

(** The texts are strings of ASCII characters; the character classes,
    [upper] and the white space of [split] and [strip] are those of
    Python on the code points below 128. *)
Module Plate.
Local Open Scope string_scope.
Local Open Scope list_scope.

(** [c.isspace()]: tab, line feed, vertical tab, form feed, carriage
    return, the four separators and the space. *)
Definition isspace (c : ascii) : bool :=
  let n := nat_of_ascii c in
  (((9 <=? n) && (n <=? 13)) || ((28 <=? n) && (n <=? 32)))%nat.

(** [c.isdigit()] *)
Definition isdigit (c : ascii) : bool :=
  let n := nat_of_ascii c in
  ((48 <=? n) && (n <=? 57))%nat.

(** [c.isalpha()] *)
Definition isalpha (c : ascii) : bool :=
  let n := nat_of_ascii c in
  (((65 <=? n) && (n <=? 90)) || ((97 <=? n) && (n <=? 122)))%nat.

(** [text.split()]: the maximal runs of characters that are not white
    space; [word] is the run being read. *)
Fixpoint split_from (word : string) (text : string) : list string :=
  match text with
  | EmptyString =>
      match word with EmptyString => [] | _ => [word] end
  | String c text' =>
      if isspace c
      then match word with
           | EmptyString => split_from EmptyString text'
           | _ => word :: split_from EmptyString text'
           end
      else split_from (word +:+ String c EmptyString) text'
  end.

Definition split (text : string) : list string :=
  split_from EmptyString text.

(** [text.lstrip()], [text.rstrip()] and [text.strip()] *)
Fixpoint lstrip (text : string) : string :=
  match text with
  | EmptyString => EmptyString
  | String c text' => if isspace c then lstrip text' else text
  end.

Fixpoint rstrip (text : string) : string :=
  match text with
  | EmptyString => EmptyString
  | String c text' =>
      match rstrip text' with
      | EmptyString => if isspace c then EmptyString else String c EmptyString
      | rest => String c rest
      end
  end.

Definition strip (text : string) : string := lstrip (rstrip text).

(** [c in s] for a character *)
Fixpoint char_in (c : ascii) (s : string) : bool :=
  match s with
  | EmptyString => false
  | String c' s' => Ascii.eqb c c' || char_in c s'
  end.

(** [''.join(c for c in text if p(c))] *)
Fixpoint filter_chars (p : ascii → bool) (text : string) : string :=
  match text with
  | EmptyString => EmptyString
  | String c text' =>
      if p c then String c (filter_chars p text') else filter_chars p text'
  end.

(** [any(p(c) for c in text)] *)
Fixpoint any (p : ascii → bool) (text : string) : bool :=
  match text with
  | EmptyString => false
  | String c text' => p c || any p text'
  end.

Definition clean_plate_text (text : string) : string :=
  let text := Pdf.join " " (split text) in
  let text := Pdf.upper text in
  let allowed_chars := "ABCDEFGHIJKLMNOPQRSTUVWXYZ0123456789 -" in
  let text := filter_chars (λ c, char_in c allowed_chars) text in
  strip text.

Definition validate_plate_format (text : string) (country : string) : bool :=
  let text := strip text in
  if String.eqb country "IN"
  then
    if (String.length text <? 8)%nat then false
    else
      let has_digits := any isdigit text in
      let has_letters := any isalpha text in
      has_digits && has_letters
  else (0 <? String.length text)%nat.

End Plate.

(* ===================================================================== *)
(** ** A small world to run the operations in *)
(* ===================================================================== *)

Module Samples.
Import Orm.
Local Open Scope string_scope.

Definition jan5 : datetime := mkDatetime 2026 1 5 10 55 40 0.
Definition jan4 : datetime := mkDatetime 2026 1 4 23 59 59 999999.

Definition vehicle1 : row :=
  list_to_map [
    ("id", VInt 1); ("registration_number", VStr "MH12AB1234");
    ("vehicle_type", VStr "Car"); ("created_at", VDatetime jan4) ].

Definition vehicle2 : row :=
  list_to_map [
    ("id", VInt 2); ("registration_number", VStr "KA01CD5678");
    ("vehicle_type", VStr "Bike"); ("created_at", VDatetime jan4) ].

Definition violation1 : row :=
  list_to_map [
    ("id", VInt 1); ("violation_code", VStr "V001");
    ("fine_amount", VFloat 500) ].

Definition challan1 : row :=
  list_to_map [
    ("id", VInt 1); ("challan_number", VStr "CH-20260104-00001");
    ("vehicle_id", VInt 1); ("violation_type_id", VInt 1);
    ("officer_id", VInt 7); ("issue_date", VDatetime jan4);
    ("fine_amount", VFloat 500); ("status", VStr "paid");
    ("created_at", VDatetime jan4) ].

Definition challan2 : row :=
  list_to_map [
    ("id", VInt 2); ("challan_number", VStr "CH-20260105-00001");
    ("vehicle_id", VInt 2); ("violation_type_id", VInt 1);
    ("officer_id", VInt 8); ("issue_date", VDatetime jan5);
    ("fine_amount", VFloat 1000); ("status", VStr "pending");
    ("created_at", VDatetime jan5) ].

Definition challan3 : row :=
  list_to_map [
    ("id", VInt 3); ("challan_number", VStr "CH-20260105-00002");
    ("vehicle_id", VInt 1); ("violation_type_id", VInt 1);
    ("officer_id", VInt 7); ("issue_date", VDatetime jan5);
    ("fine_amount", VFloat 250); ("status", VStr "paid");
    ("created_at", VDatetime jan5) ].

Definition database1 : Database :=
  mkDatabase [vehicle1; vehicle2] [violation1]
             [challan1; challan2; challan3] 4.

Definition empty_database : Database := mkDatabase [] [] [] 1.

(** A clock that stands still at 5 January 2026, 10:55:40. *)
Definition world1 : World := mkWorld database1 (λ _, jan5) 0.

Definition empty_world : World := mkWorld empty_database (λ _, jan5) 0.

(** The same database under a clock that advances by a microsecond at
    each reading, from 10:55:40 on. *)
Definition ticking_world : World :=
  mkWorld database1 (λ k, mkDatetime 2026 1 5 10 55 40 (Z.of_nat k)) 0.

(** Data dictionaries for the challan document. *)
Definition challan_without_amount : gmap string pyval :=
  list_to_map [
    ("challan_number", VStr "CH-20260105-00001"); ("date", VStr "2026-01-05");
    ("vehicle_number", VStr "MH12AB1234"); ("owner_name", VStr "A. Rao");
    ("violation_description", VStr "Riding without helmet");
    ("location", VStr "MG Road, Pune") ].

Definition complete_challan : gmap string pyval :=
  <["amount" := VInt 500]> challan_without_amount.

Definition challan_zero_amount : gmap string pyval :=
  <["amount" := VInt 0]> challan_without_amount.

Definition generator : Pdf.PDFGenerator :=
  Pdf.mkPDFGenerator "Vehicle Challan System" None.

(** A layout that emits the four bytes of a document header and nothing
    more. *)
Definition header_only (story : list Pdf.flowable) : list Byte.byte :=
  [Byte.x25; Byte.x50; Byte.x44; Byte.x46].

(** A request for a challan with a fine of 500 and no status. *)
Definition request500 : Crud.ChallanCreate :=
  Crud.mkChallanCreate (VInt 1) (VStr "MG Road, Pune")
                       (VStr "Riding without helmet") (VFloat 500) VNone.

(** A day on which 99999 challans were already created, with the keys
    and the numbers 1 to 99999. *)
Definition busy_challan (k : Z) : row :=
  <["id" := VInt k]>
    (<["challan_number" :=
         VStr ("CH-20260105-" ++ Py.zfill 5 (Py.str_int k))]> challan2).

Definition busy_world : World :=
  mkWorld (mkDatabase [vehicle2] [violation1]
                      (busy_challan <$> seqZ 1 99999) 100000)
          (λ _, jan5) 0.

End Samples.

(* ===================================================================== *)
(** ** The vocabulary of the properties *)
(* ===================================================================== *)

Module Spec.
Import Orm.
Local Open Scope string_scope.
Local Open Scope list_scope.

(** A key is absent from a table when no row holds it in the column. *)
Definition absent (t : table) (col : string) (key : pyval) (d : Database)
    : Prop :=
  ∀ r, r ∈ rows_of t d → attr r col ≠ key.

(** Some row of the table has the primary key [id]. *)
Definition present (t : table) (id : Z) (d : Database) : Prop :=
  ∃ r, r ∈ rows_of t d ∧ attr r "id"%string = VInt id.

(** The first row of the table that holds the key in the column. *)
Definition first_with (t : table) (col : string) (key : pyval)
    (d : Database) (r : row) : Prop :=
  ∃ before after,
    rows_of t d = before ++ r :: after ∧
    attr r col = key ∧
    ∀ r', r' ∈ before → attr r' col ≠ key.



(** Numeric equality of two results: equal as numbers (the two zeros are
    equal), or both not a number. *)
Definition float_same (a b : float) : Prop :=
  (a =? b)%float = true ∨ (is_nan a = true ∧ is_nan b = true).

(** The row has its primary key. *)
Definition keyed (r : row) : Prop := attr r "id" ≠ VNone.

(** The challan has the status [s]. *)
Definition has_status (s : string) (c : row) : Prop :=
  attr c "status" = VStr s.

Global Instance keyed_dec r : Decision (keyed r).
Proof.
  unfold keyed. destruct (attr r "id"); try (left; discriminate).
  right. by intros [].
Defined.

Global Instance has_status_dec s c : Decision (has_status s c).
Proof.
  unfold has_status. destruct (attr c "status") as [| | | |s'| |];
    try (right; discriminate).
  destruct (decide (s' = s)) as [->|Hne]; [by left|right; congruence].
Defined.

(** The fine amounts of the paid challans, in storage order. *)
Definition paid_amounts (d : Database) : list float :=
  omap (λ c, as_float (attr c "fine_amount"))
       (filter (has_status "paid") (challans d)).

(** The sum of a list of numbers from left to right; zero for none. *)
Definition float_sum (l : list float) : float :=
  match l with
  | [] => 0%float
  | x :: l' => foldl PrimFloat.add x l'
  end.

(** [sub in s] for strings. *)
Fixpoint occurs (sub s : string) : bool :=
  match s with
  | EmptyString => String.prefix sub s
  | String _ s' => String.prefix sub s || occurs sub s'
  end.

(** One step of the loop of [validate_challan_data] over the required
    fields. *)
Definition required_step (data : gmap string pyval)
    (errors : list string) (fl : string * string) : list string :=
  if Pdf.missing_or_falsy data fl.1
  then errors ++ [fl.2 +:+ " is required"]
  else errors.

(** The message of the [ValueError] of [generate_challan_pdf]. *)
Definition missing_fields_message : string :=
  "Missing required fields. Required: ['challan_number', 'date', 'vehicle_number', 'owner_name', 'violation_description', 'amount', 'location']".

(** The decimal digits of a natural number, most significant first. *)
Definition digits_of (z : Z) : uint := N.to_uint (Z.to_N z).

(** The challan has its key and was created at or after [t]. *)
Definition created_since (t : datetime) (c : row) : Prop :=
  keyed c ∧ sql_ge (attr c "created_at"%string) (VDatetime t).

Global Instance created_since_dec t c : Decision (created_since t c).
Proof. unfold created_since. apply _. Defined.

(** The number of challans created since [t]. *)
Definition count_since (t : datetime) (d : Database) : Z :=
  Z.of_nat (length (filter (created_since t) (challans d))).

(** Two readings of the clock on the same day. *)
Definition same_date (a b : datetime) : Prop :=
  Datetime.year a = Datetime.year b ∧
  Datetime.month a = Datetime.month b ∧
  Datetime.day a = Datetime.day b.

(** What [generate_challan_number] returns when the clock reads [now]
    and [n] challans were created since the midnight before. *)
Definition challan_number (now : datetime) (n : Z) : string :=
  ("CH-" ++ (Py.zfill 4 (Py.str_int (Datetime.year now)) ++
             Py.zfill 2 (Py.str_int (Datetime.month now)) ++
             Py.zfill 2 (Py.str_int (Datetime.day now))) ++
   "-" ++ Py.zfill 5 (Py.str_int (n + 1)))%string.

(** The challan refers to the vehicle [vehicle_id]. *)
Definition of_vehicle (vehicle_id : Z) (c : row) : Prop :=
  attr c "vehicle_id" = VInt vehicle_id.

Global Instance of_vehicle_dec vehicle_id c : Decision (of_vehicle vehicle_id c).
Proof.
  unfold of_vehicle. destruct (attr c "vehicle_id") as [| |z| | | |];
    try (right; discriminate).
  destruct (decide (z = vehicle_id)) as [->|Hne];
    [by left|right; congruence].
Defined.

(** The primary keys of the rows are the integers [ids], which are
    pairwise distinct. *)
Definition primary_keys (rows : list row) (ids : list Z) : Prop :=
  (λ r, attr r "id") <$> rows = VInt <$> ids ∧ NoDup ids.

(** The cells of the tables of a story. *)
Definition cells (story : list Pdf.flowable) : list Pdf.content :=
  story ≫= λ f, match f with
                | Pdf.Table data _ _ => concat data
                | _ => []
                end.

(** The value is printed in a table of the story, as it is or after the
    rupee sign. *)
Definition printed (v : pyval) (story : list Pdf.flowable) : Prop :=
  Pdf.CValue v ∈ cells story ∨ Pdf.CRupee v ∈ cells story.

(** Every field of the list has a true value, and the amount is a
    number. *)
Definition complete (fields : list string) (data : gmap string pyval)
    : Prop :=
  (∀ field, field ∈ fields →
            ∃ v, data !! field = Some v ∧ Py.truthy v = true) ∧
  (∀ v, data !! "amount" = Some v → Py.is_int_or_float v = true).

(** The message of the [ValueError] of [generate_receipt_pdf]. *)
Definition missing_receipt_fields_message : string :=
  "Missing required fields. Required: ['receipt_number', 'challan_number', 'date', 'amount', 'payment_method', 'vehicle_number', 'owner_name']".

(** The errors of a validation: those of the loop over the required
    fields, then the one about the type of the amount. *)
Definition validation_errors (labels : list (string * string))
    (data : gmap string pyval) : list string :=
  let errors := foldl (required_step data) [] labels in
  if Py.truthy (Pdf.get data "amount" VNone) &&
     negb (Py.is_int_or_float (Pdf.get data "amount" VNone))
  then errors ++ ["Amount must be a number"]
  else errors.

(** Every character of the string has the property. *)
Fixpoint every (p : ascii → bool) (s : string) : bool :=
  match s with
  | EmptyString => true
  | String c s' => p c && every p s'
  end.

(** The string has ASCII characters only. *)
Definition ascii_text (s : string) : Prop :=
  every (λ c, (nat_of_ascii c <? 128)%nat) s = true.

(** A character that [clean_plate_text] lets through. *)
Definition allowed (c : ascii) : bool :=
  Plate.char_in c "ABCDEFGHIJKLMNOPQRSTUVWXYZ0123456789 -".

(** The first and the last character of a string, if it has any. *)
Definition first_char (s : string) : option ascii :=
  match s with
  | EmptyString => None
  | String c _ => Some c
  end.

Fixpoint last_char (s : string) : option ascii :=
  match s with
  | EmptyString => None
  | String c EmptyString => Some c
  | String _ s' => last_char s'
  end.

(** No two spaces in a row. *)
Fixpoint single_spaced (s : string) : bool :=
  match s with
  | String " " ((String " " _) as s') => false
  | String _ s' => single_spaced s'
  | EmptyString => true
  end.

(** A word: a string that is not empty and has no white space. *)
Definition is_word (w : string) : Prop :=
  w ≠ EmptyString ∧ every (λ c, negb (Plate.isspace c)) w = true.

(** The character, if there is one, is not white space. *)
Definition no_space (c : option ascii) : Prop :=
  ∀ x, c = Some x → Plate.isspace x = false.



End Spec.

(* ===================================================================== *)
(** * Properties *)
(* ===================================================================== *)

(** ** Comparisons and lookups *)

Section SqlFacts.
Import Spec.
Import Orm.

Lemma sql_eq_int (a : pyval) (z : Z) : sql_eq a (VInt z) ↔ a = VInt z.
Proof.
  destruct a; simpl; try (split; [intros [] | discriminate]).
  rewrite Is_true_true, Z.eqb_eq. split; congruence.
Qed.

Lemma sql_eq_str (a : pyval) (s : string) : sql_eq a (VStr s) ↔ a = VStr s.
Proof.
  destruct a; simpl; try (split; [intros [] | discriminate]).
  rewrite Is_true_true, String.eqb_eq. split; congruence.
Qed.

Lemma filter_none {A} (P : A → Prop) `{∀ x, Decision (P x)} (l : list A) :
  (∀ x, x ∈ l → ¬ P x) → filter P l = [].
Proof.
  induction l as [|x l IH]; intros Hl; [done|].
  rewrite filter_cons_False by (apply Hl; left).
  apply IH. intros y Hy. apply Hl. by right.
Qed.

Lemma filter_all {A} (P : A → Prop) `{∀ x, Decision (P x)} (l : list A) :
  (∀ x, x ∈ l → P x) → filter P l = l.
Proof.
  induction l as [|x l IH]; intros Hl; [done|].
  rewrite filter_cons_True by (apply Hl; left).
  f_equal. apply IH. intros y Hy. apply Hl. by right.
Qed.

Lemma first_int_absent t col z d :
  absent t col (VInt z) d →
  Crud.first (filter (λ r, sql_eq (attr r col) (VInt z)) (rows_of t d))
  = None.
Proof.
  intros Ha. rewrite filter_none; [done|].
  intros r Hr Heq. apply sql_eq_int in Heq. by apply (Ha r).
Qed.

Lemma first_str_absent t col s d :
  absent t col (VStr s) d →
  Crud.first (filter (λ r, sql_eq (attr r col) (VStr s)) (rows_of t d))
  = None.
Proof.
  intros Ha. rewrite filter_none; [done|].
  intros r Hr Heq. apply sql_eq_str in Heq. by apply (Ha r).
Qed.

Lemma first_int_present t col z d r :
  first_with t col (VInt z) d r →
  Crud.first (filter (λ r, sql_eq (attr r col) (VInt z)) (rows_of t d))
  = Some r.
Proof.
  intros (before & after & -> & Hr & Hb).
  rewrite filter_app, filter_none.
  - rewrite filter_cons_True; [done|]. by apply sql_eq_int.
  - intros r' Hr' Heq. apply sql_eq_int in Heq. by apply (Hb r').
Qed.

Lemma is_int_dec (z : Z) (v : pyval) : Decision (v = VInt z).
Proof.
  destruct v as [| | z' | | | |]; try (right; discriminate).
  destruct (decide (z' = z)) as [->|Hne]; [by left|right; congruence].
Defined.

(** A key that some row holds has a first row holding it. *)
Lemma present_first_with t col key d r :
  (∀ v, Decision (v = key)) →
  r ∈ rows_of t d → attr r col = key →
  ∃ r0, first_with t col key d r0.
Proof.
  intros Hdec. unfold first_with.
  induction (rows_of t d) as [|x l IH]; intros Hin Hr.
  - by apply elem_of_nil in Hin.
  - destruct (Hdec (attr x col)) as [Hx|Hx].
    + exists x, [], l. split_and!; [done|done|].
      intros r' Hr'. by apply elem_of_nil in Hr'.
    + apply elem_of_cons in Hin as [->|Hin]; [done|].
      destruct (IH Hin Hr) as (r0 & before & after & -> & Hr0 & Hb).
      exists r0, (x :: before), after. split_and!; [done|done|].
      intros r' [->|Hr']%elem_of_cons; auto.
Qed.

End SqlFacts.

(** ** Lookups, updates and deletion of rows that are not there *)

Section NotFound.
Import Spec.
Import Orm Crud.
Local Open Scope string_scope.

Ltac run := unfold get_vehicle, get_vehicle_by_registration, update_vehicle,
  delete_vehicle, get_violation_type, update_violation_type, get_challan,
  get_challan_by_number, update_challan, mbind, mret, M_bind, M_ret, query;
  simpl.

(** C5.  A lookup by primary key or by natural key, and an update, of a
    key that no row of the table holds returns [None] and leaves the
    world (database and clock) as it was.  The operations are total
    functions of the world: there is no exceptional outcome. *)
Theorem not_found_returns_none (w : World) :
  (∀ vehicle_id,
      absent Vehicles "id" (VInt vehicle_id) (db w) →
      get_vehicle vehicle_id w = (None, w) ∧
      ∀ vehicle_update,
        update_vehicle vehicle_id vehicle_update w = (None, w)) ∧
  (∀ registration_number,
      absent Vehicles "registration_number" (VStr registration_number)
             (db w) →
      get_vehicle_by_registration registration_number w = (None, w)) ∧
  (∀ violation_type_id,
      absent ViolationTypes "id" (VInt violation_type_id) (db w) →
      get_violation_type violation_type_id w = (None, w) ∧
      ∀ violation_type_update,
        update_violation_type violation_type_id violation_type_update w
        = (None, w)) ∧
  (∀ challan_id,
      absent Challans "id" (VInt challan_id) (db w) →
      get_challan challan_id w = (None, w) ∧
      ∀ challan_update,
        update_challan challan_id challan_update w = (None, w)) ∧
  (∀ challan_number,
      absent Challans "challan_number" (VStr challan_number) (db w) →
      get_challan_by_number challan_number w = (None, w)).
Proof.
  split_and!.
  - intros id Ha. apply first_int_absent in Ha. simpl in Ha.
    split; [|intros upd]; run; by rewrite Ha.
  - intros reg Ha. apply first_str_absent in Ha. simpl in Ha.
    run; by rewrite Ha.
  - intros id Ha. apply first_int_absent in Ha. simpl in Ha.
    split; [|intros upd]; run; by rewrite Ha.
  - intros id Ha. apply first_int_absent in Ha. simpl in Ha.
    split; [|intros upd]; run; by rewrite Ha.
  - intros num Ha. apply first_str_absent in Ha. simpl in Ha.
    run; by rewrite Ha.
Qed.

(** C4.  Deleting a vehicle whose id is in the table returns [True];
    afterwards no vehicle has that id and no challan refers to it, and
    every other vehicle and challan, and the violation types, are still
    there.  Deleting an id that is not in the table returns [False] and
    changes nothing. *)
Theorem delete_vehicle_cascades (w : World) (vehicle_id : Z) :
  (present Vehicles vehicle_id (db w) →
   ∃ w',
     delete_vehicle vehicle_id w = (true, w') ∧
     (∀ v, v ∈ vehicles (db w') ↔
           v ∈ vehicles (db w) ∧ attr v "id" ≠ VInt vehicle_id) ∧
     (∀ c, c ∈ challans (db w') ↔
           c ∈ challans (db w) ∧ attr c "vehicle_id" ≠ VInt vehicle_id) ∧
     violation_types (db w') = violation_types (db w) ∧
     get_vehicle vehicle_id w' = (None, w')) ∧
  (absent Vehicles "id" (VInt vehicle_id) (db w) →
   delete_vehicle vehicle_id w = (false, w)).
Proof.
  split.
  - intros (v & Hin & Hid).
    destruct (present_first_with Vehicles "id" (VInt vehicle_id) (db w) v
                (is_int_dec vehicle_id) Hin Hid) as (r & Hfirst).
    pose proof Hfirst as (_ & _ & _ & Hr & _).
    apply first_int_present in Hfirst. simpl in Hfirst.
    run. rewrite Hfirst. unfold delete_vehicle_cascade, flush_delete,
      modify_rows, mbind, M_bind. simpl. rewrite Hr.
    eexists. split; [reflexivity|]. simpl.
    assert (Hv : ∀ x, x ∈ filter (λ r0 : row, ¬ sql_eq (attr r0 "id")
                                     (VInt vehicle_id)) (vehicles (db w)) ↔
                 x ∈ vehicles (db w) ∧ attr x "id" ≠ VInt vehicle_id).
    { intros x. rewrite list_elem_of_filter, sql_eq_int. tauto. }
    split_and!.
    + exact Hv.
    + intros c. rewrite list_elem_of_filter, sql_eq_int. tauto.
    + done.
    + run. rewrite filter_none; [done|].
      intros x Hx Heq. apply Hv in Hx as [_ Hx]. by apply sql_eq_int in Heq.
  - intros Ha. apply first_int_absent in Ha. simpl in Ha.
    run. by rewrite Ha.
Qed.

End NotFound.

(** ** Instances of the two theorems above in the sample world *)

Section NotFoundWitnesses.
Import Spec.
Import Orm Crud Samples.
Local Open Scope string_scope.

Ltac absent_in_sample :=
  let r := fresh "r" in let Hr := fresh "Hr" in
  intros r Hr; simpl in Hr;
  repeat (apply elem_of_cons in Hr as [->|Hr]);
  [ vm_compute; discriminate .. | by apply elem_of_nil in Hr ].

Lemma not_found_returns_none_witness :
  get_vehicle 9 world1 = (None, world1) ∧
  update_vehicle 9 ∅ world1 = (None, world1) ∧
  get_vehicle_by_registration "DL00ZZ0000" world1 = (None, world1) ∧
  get_violation_type 9 world1 = (None, world1) ∧
  update_violation_type 9 ∅ world1 = (None, world1) ∧
  get_challan 9 world1 = (None, world1) ∧
  update_challan 9 ∅ world1 = (None, world1) ∧
  get_challan_by_number "CH-20260105-00009" world1 = (None, world1).
Proof.
  destruct (not_found_returns_none world1) as (Hv & Hr & Ht & Hc & Hn).
  destruct (Hv 9) as [Hv1 Hv2]; [absent_in_sample|].
  destruct (Ht 9) as [Ht1 Ht2]; [absent_in_sample|].
  destruct (Hc 9) as [Hc1 Hc2]; [absent_in_sample|].
  split_and!; [exact Hv1 | apply Hv2 | apply Hr; absent_in_sample
              | exact Ht1 | apply Ht2 | exact Hc1 | apply Hc2
              | apply Hn; absent_in_sample].
Defined.

Lemma delete_vehicle_cascades_witness :
  (∃ w', delete_vehicle 1 world1 = (true, w') ∧
         vehicles (db w') = [vehicle2] ∧ challans (db w') = [challan2]) ∧
  delete_vehicle 9 world1 = (false, world1).
Proof.
  destruct (delete_vehicle_cascades world1 1) as [Hpresent _].
  destruct (delete_vehicle_cascades world1 9) as [_ Habsent].
  split.
  - destruct Hpresent as (w' & Hrun & _).
    + exists vehicle1. split; [left | reflexivity].
    + exists w'. split; [exact Hrun|].
      vm_compute in Hrun. injection Hrun as <-. split; reflexivity.
  - apply Habsent. absent_in_sample.
Defined.

End NotFoundWitnesses.

(** ** Partial updates *)

Section PartialUpdate.
Import Spec.
Import Orm Crud.
Local Open Scope string_scope.








End PartialUpdate.

Section PartialUpdateWitness.
Import Spec.
Import Orm Crud Samples.
Local Open Scope string_scope.


End PartialUpdateWitness.

(** ** The order of datetimes *)

(** ** Listing challans *)

Section Listing.
Import Orm Crud.
Local Open Scope string_scope.
Local Open Scope list_scope.

(** The class [Challan] has the attributes the first three filters
    name, and none called [issued_date]: its date column is
    [issue_date]. *)
Lemma challan_columns :
  declares Challans "vehicle_id" = true ∧
  declares Challans "status" = true ∧
  declares Challans "officer_id" = true ∧
  declares Challans "issue_date" = true ∧
  declares Challans "issued_date" = false.
Proof. by vm_compute. Qed.

(** C7 fails on the code.  [get_challans] names the date column
    [Challan.issued_date] for its ordering (and for the two date filters),
    an attribute that the class [Challan] of [models.py] does not have:
    every call raises [AttributeError] for it, whatever the store, the
    filters and the page, and returns no listing.  The store is left as
    it was. *)
Theorem get_challans_raises_attribute_error (w : World) (skip limit : nat)
    (vehicle_id status officer_id date_from date_to : pyval) :
  get_challans skip limit vehicle_id status officer_id date_from date_to w
  = (inl (AttributeError "Challan" "issued_date"), w).
Proof.
  unfold get_challans, mbind, mret, R_bind, R_ret, lift, query, class_attr,
    raise.
  destruct challan_columns as (-> & -> & -> & _ & ->).
  destruct (Py.truthy vehicle_id), (Py.truthy status),
    (Py.truthy officer_id), (Py.truthy date_from), (Py.truthy date_to);
    reflexivity.
Qed.

End Listing.

Section ListingInstances.
Import Orm Crud Samples.
Local Open Scope string_scope.

(** The call with the defaults of every parameter, on a store with three
    challans. *)
Example get_challans_with_defaults :
  get_challans 0 100 VNone VNone VNone VNone VNone world1
  = (inl (AttributeError "Challan" "issued_date"), world1).
Proof. reflexivity. Qed.

End ListingInstances.

Section FloatFacts.
Import Spec.

Lemma Prim2SF_zero : Prim2SF 0%float = S754_zero false.
Proof. reflexivity. Qed.

(** A number equal to zero is one zero is equal to. *)
Lemma feqb_zero_sym (s : float) :
  (s =? 0)%float = true → (0 =? s)%float = true.
Proof.
  rewrite !FloatAxioms.eqb_spec, Prim2SF_zero.
  destruct (Prim2SF s) as [sg|sg| |sg m e]; try destruct sg; simpl; done.
Qed.

(** No number above zero is at most zero. *)
Lemma fleb_zero_of_pos (t : float) :
  (0 <? t)%float = true → (t <=? 0)%float = false.
Proof.
  rewrite FloatAxioms.ltb_spec, FloatAxioms.leb_spec, Prim2SF_zero.
  destruct (Prim2SF t) as [sg|sg| |sg m e]; try destruct sg; simpl; done.
Qed.

Lemma float_same_refl (a : float) : float_same a a.
Proof.
  unfold float_same, is_nan. destruct (a =? a)%float; simpl; auto.
Qed.

End FloatFacts.

(** ** Dashboard statistics *)

Section Dashboard.
Import Spec.
Import Orm Crud.
Local Open Scope string_scope.

Lemma py_or_int_zero (n : Z) : Py.py_or (VInt n) (VInt 0) = VInt n.
Proof.
  unfold Py.py_or. simpl. destruct (Z.eqb_spec n 0) as [->|]; done.
Qed.

Lemma sql_count_keyed (rows : list row) :
  sql_count "id" rows = Z.of_nat (length (filter keyed rows)).
Proof.
  unfold sql_count. do 2 f_equal. apply list_filter_iff. intros r.
  unfold keyed. destruct (attr r "id"); simpl; naive_solver.
Qed.

Lemma filter_keyed (P : row → Prop) `{∀ c, Decision (P c)}
    (rows : list row) :
  Forall keyed rows →
  filter (λ c, keyed c ∧ P c) rows = filter P rows.
Proof.
  induction 1 as [|c l Hc _ IH]; [done|].
  rewrite !filter_cons, IH.
  destruct (decide (keyed c ∧ P c)) as [[_ Hp]|Hn];
    destruct (decide (P c)) as [Hp'|Hn']; try done.
  destruct Hn. by split.
Qed.

Lemma filter_status s (rows : list row) :
  filter (λ c, sql_eq (attr c "status") (VStr s)) rows
  = filter (has_status s) rows.
Proof. apply list_filter_iff. intros c. apply sql_eq_str. Qed.

Lemma revenue_is_sum (d : Database) :
  ∃ revenue,
    Py.py_or (sql_sum "fine_amount"
                (filter (λ c, sql_eq (attr c "status") (VStr "paid"))
                        (challans d)))
             (VFloat 0) = VFloat revenue ∧
    float_same revenue (float_sum (paid_amounts d)) ∧
    (challans d = [] → revenue = 0%float).
Proof.
  unfold sql_sum, paid_amounts. rewrite filter_status.
  destruct (omap _ (filter (has_status "paid") (challans d)))
    as [|x l] eqn:E; simpl.
  - exists 0%float. split_and!; [done|by left|done].
  - unfold Py.py_or. simpl.
    destruct (foldl PrimFloat.add x l =? 0)%float eqn:Ez; simpl.
    + exists 0%float. split_and!; [done| |done].
      left. by apply feqb_zero_sym.
    + eexists. split_and!; [done|apply float_same_refl|].
      intros Hnil. rewrite Hnil in E. discriminate.
Qed.

(** C8.  The dashboard counts the vehicles and the challans (the rows
    that have their primary key, which is every row of a table), counts
    as pending the challans whose status is ['pending'], and reports as
    revenue the sum of the fine amounts of the challans whose status is
    ['paid'] and of no other, equal to it as a number; no entry is
    [None].  With no vehicle and no challan the three counts are [0] and
    the revenue is [0.0]. *)
Theorem dashboard_statistics_totals (w : World) :
  ∃ stats revenue,
    get_dashboard_statistics w = (stats, w) ∧
    stats !! "total_vehicles"
    = Some (VInt (Z.of_nat (length (filter keyed (vehicles (db w)))))) ∧
    stats !! "total_challans"
    = Some (VInt (Z.of_nat (length (filter keyed (challans (db w)))))) ∧
    stats !! "pending_challans"
    = Some (VInt (Z.of_nat (length
              (filter (λ c, keyed c ∧ has_status "pending" c)
                      (challans (db w)))))) ∧
    (Forall keyed (challans (db w)) →
     stats !! "pending_challans"
     = Some (VInt (Z.of_nat (length
               (filter (has_status "pending") (challans (db w))))))) ∧
    stats !! "total_revenue" = Some (VFloat revenue) ∧
    float_same revenue (float_sum (paid_amounts (db w))) ∧
    (vehicles (db w) = [] → challans (db w) = [] →
     stats !! "total_vehicles" = Some (VInt 0) ∧
     stats !! "total_challans" = Some (VInt 0) ∧
     stats !! "pending_challans" = Some (VInt 0) ∧
     stats !! "total_revenue" = Some (VFloat 0)).
Proof.
  destruct (revenue_is_sum (db w)) as (revenue & Hrev & Hsum & Hzero).
  eexists _, revenue.
  unfold get_dashboard_statistics, mbind, mret, M_bind, M_ret, query.
  simpl. rewrite Hrev, !py_or_int_zero, !sql_count_keyed, filter_status.
  rewrite list_filter_filter.
  split_and!; try done.
  - intros Hkeyed. by rewrite (filter_keyed _ _ Hkeyed).
  - intros Hv Hc. rewrite Hv, Hc, (Hzero Hc). done.
Qed.

Lemma dashboard_statistics_totals_witness :
  (∃ stats,
     get_dashboard_statistics Samples.empty_world
     = (stats, Samples.empty_world) ∧
     stats !! "total_vehicles" = Some (VInt 0) ∧
     stats !! "total_challans" = Some (VInt 0) ∧
     stats !! "pending_challans" = Some (VInt 0) ∧
     stats !! "total_revenue" = Some (VFloat 0)) ∧
  (∃ stats,
     get_dashboard_statistics Samples.world1 = (stats, Samples.world1) ∧
     stats !! "pending_challans" = Some (VInt 1)).
Proof.
  split.
  - destruct (dashboard_statistics_totals Samples.empty_world)
      as (stats & revenue & Hrun & _ & _ & _ & _ & _ & _ & Hempty).
    exists stats. split; [exact Hrun|].
    apply Hempty; reflexivity.
  - destruct (dashboard_statistics_totals Samples.world1)
      as (stats & revenue & Hrun & _ & _ & _ & Hpending & _).
    exists stats. split; [exact Hrun|].
    apply Hpending.
    repeat (constructor; [by vm_compute|]). constructor.
Defined.

End Dashboard.

(** ** The violation detector *)

Section DetectorStub.
Import Detector.
Context {Frame : Type}.

Lemma threshold_not_reached (self : ViolationDetector) :
  (0 <? confidence_threshold self)%float = true →
  (confidence_threshold self <=? 0)%float = false.
Proof. apply fleb_zero_of_pos. Qed.

(** C9.  Every record the three detection methods build has confidence
    [0.0], so has every record they return; with a threshold above zero
    each of them returns [None], and [detect_all_violations] returns the
    empty list and leaves the detector, its history included, as it
    was. *)
Theorem stub_confidence_is_zero (self : ViolationDetector) (frame : Frame)
    (vehicle_region : bbox) (now1 now2 now3 : datetime) :
  (confidence (helmet_candidate vehicle_region now1) = 0%float ∧
   confidence (seat_belt_candidate vehicle_region now2) = 0%float ∧
   confidence (tripling_candidate vehicle_region now3) = 0%float) ∧
  (∀ v,
     detect_helmet_violation self frame vehicle_region now1 = Some v ∨
     detect_seat_belt_violation self frame vehicle_region now2 = Some v ∨
     detect_tripling_violation self frame vehicle_region now3 = Some v ∨
     v ∈ (detect_all_violations self frame vehicle_region now1 now2 now3).1 →
     confidence v = 0%float) ∧
  ((0 <? confidence_threshold self)%float = true →
   detect_helmet_violation self frame vehicle_region now1 = None ∧
   detect_seat_belt_violation self frame vehicle_region now2 = None ∧
   detect_tripling_violation self frame vehicle_region now3 = None ∧
   detect_all_violations self frame vehicle_region now1 now2 now3
   = ([], self)).
Proof.
  split_and!; try reflexivity.
  - intros v. unfold detect_all_violations, detect_helmet_violation,
      detect_seat_belt_violation, detect_tripling_violation. simpl.
    destruct (confidence_threshold self <=? 0)%float; simpl.
    + rewrite !elem_of_cons, elem_of_nil.
      intros [H|[H|[H|[H|[H|[H|[]]]]]]];
        try injection H as <-; try subst v; reflexivity.
    + rewrite elem_of_nil. intros [H|[H|[H|[]]]]; discriminate.
  - intros Hpos%threshold_not_reached.
    unfold detect_all_violations, detect_helmet_violation,
      detect_seat_belt_violation, detect_tripling_violation. simpl.
    rewrite Hpos. simpl. split_and!; try reflexivity.
    destruct self as [threshold history]. simpl. by rewrite app_nil_r.
Qed.

End DetectorStub.

Section DetectorStubWitness.
Import Detector Samples.

(** The detector with the default threshold [0.6]. *)
Lemma stub_confidence_is_zero_witness :
  detect_helmet_violation (init 0.6) tt (0, 0, 10, 10) jan5 = None ∧
  detect_seat_belt_violation (init 0.6) tt (0, 0, 10, 10) jan5 = None ∧
  detect_tripling_violation (init 0.6) tt (0, 0, 10, 10) jan5 = None ∧
  detect_all_violations (init 0.6) tt (0, 0, 10, 10) jan5 jan5 jan5
  = ([], init 0.6).
Proof.
  destruct (stub_confidence_is_zero (init 0.6) tt (0, 0, 10, 10)
              jan5 jan5 jan5) as (_ & _ & Hnone).
  apply Hnone. reflexivity.
Defined.

End DetectorStubWitness.

(** ** The challan document *)

Section Document.
Import Spec.
Import Pdf.
Local Open Scope string_scope.
Local Open Scope list_scope.

Lemma required_step_keeps data labels errors e :
  e ∈ errors → e ∈ foldl (required_step data) errors labels.
Proof.
  revert errors. induction labels as [|fl labels IH]; intros errors He.
  - done.
  - simpl. apply IH. unfold required_step.
    destruct (missing_or_falsy data fl.1); [|done].
    apply elem_of_app. by left.
Qed.

Lemma required_step_reports data labels errors field label :
  (field, label) ∈ labels → missing_or_falsy data field = true →
  (label +:+ " is required") ∈ foldl (required_step data) errors labels.
Proof.
  revert errors. induction labels as [|fl labels IH]; intros errors Hin Hm.
  - by apply elem_of_nil in Hin.
  - simpl. apply elem_of_cons in Hin as [<-|Hin]; [|by apply IH].
    apply required_step_keeps. unfold required_step. simpl. rewrite Hm.
    apply elem_of_app. right. by left.
Qed.

(** A required field that is missing, or present with a false value, is
    reported by its label and makes the data invalid. *)
Lemma validate_reports (data : gmap string pyval) field label :
  (field, label) ∈ required_labels → missing_or_falsy data field = true →
  (validate_challan_data data).1 = false ∧
  (label +:+ " is required") ∈ (validate_challan_data data).2.
Proof.
  intros Hin Hm.
  assert (He : (label +:+ " is required") ∈ (validate_challan_data data).2).
  { unfold validate_challan_data. simpl.
    pose proof (required_step_reports data required_labels [] field label
                  Hin Hm) as Hr.
    unfold required_step in Hr.
    destruct (Py.truthy (get data "amount" VNone) &&
              negb (Py.is_int_or_float (get data "amount" VNone)));
      [apply elem_of_app; by left | done]. }
  split; [|done].
  unfold validate_challan_data in *. simpl in *.
  destruct (if Py.truthy (get data "amount" VNone) &&
               negb (Py.is_int_or_float (get data "amount" VNone))
            then _ else _) as [|e errors]; [|done].
  by apply elem_of_nil in He.
Qed.

Lemma contains_all (data : gmap string pyval) :
  (∀ f, f ∈ required_fields → is_Some (data !! f)) →
  forallb (contains data) required_fields = true.
Proof.
  intros Hall. apply Is_true_true, forallb_True, Forall_forall.
  intros f Hf. unfold contains. apply bool_decide_pack. by apply Hall.
Qed.

Lemma contains_not_all (data : gmap string pyval) field :
  field ∈ required_fields → data !! field = None →
  forallb (contains data) required_fields = false.
Proof.
  intros Hf Hnone.
  destruct (forallb (contains data) required_fields) eqn:E; [|done].
  apply Is_true_true, forallb_True in E.
  rewrite Forall_forall in E. specialize (E field Hf).
  unfold contains in E. apply bool_decide_unpack in E.
  rewrite Hnone in E. by destruct E.
Qed.

Section with_layout.
Variable build : list flowable → list Byte.byte.

(** C10.  A required field that is present with a false value (an
    amount of [0], an empty owner name) makes [validate_challan_data]
    return [False] with the field's label among the errors, while
    [generate_challan_pdf] looks at the keys only: with every required
    key present it does not raise, whatever the values. *)
Theorem falsy_required_field (self : PDFGenerator)
    (data : gmap string pyval) (output_path : option string)
    (field label : string) (v : pyval) :
  (field, label) ∈ required_labels →
  data !! field = Some v →
  Py.truthy v = false →
  (validate_challan_data data).1 = false ∧
  (label +:+ " is required") ∈ (validate_challan_data data).2 ∧
  ((∀ f, f ∈ required_fields → is_Some (data !! f)) →
   ∃ value written,
     generate_challan_pdf build self data output_path
     = Return value written).
Proof.
  intros Hin Hv Hfalsy.
  destruct (validate_reports data field label Hin) as [Hinvalid Herr].
  { unfold missing_or_falsy. by rewrite Hv, Hfalsy. }
  split_and!; [done|done|].
  intros Hall. unfold generate_challan_pdf.
  rewrite (contains_all data Hall). simpl.
  destruct output_path as [path|]; [|by eexists _, _].
  destruct (negb (String.eqb path "")); by eexists _, _.
Qed.

Lemma required_field_has_label field :
  field ∈ required_fields → ∃ label, (field, label) ∈ required_labels.
Proof.
  change required_fields with (required_labels.*1).
  intros ([f l] & -> & Hin)%list_elem_of_fmap. by exists l.
Qed.

(** C3, as the code has it.  With a required key missing,
    [generate_challan_pdf] raises [ValueError] with one fixed message,
    which lists the seven required keys, each in quotes, whichever of
    them are missing; the list of the missing fields by label
    (["Amount is required"]) is what [validate_challan_data] returns, as
    a result and not as an error.  With every required key present and
    no output path (none, or the empty string) the call succeeds and
    returns a byte stream that is not empty: the document of the layout
    library, which begins with the marker of a PDF file. *)
Theorem missing_field_raises_fixed_message
    (render : list flowable → list Byte.byte) (self : PDFGenerator)
    (data : gmap string pyval) (output_path : option string) :
  ((∃ field, field ∈ required_fields ∧ data !! field = None) →
   generate_challan_pdf (pdf_document render) self data output_path
   = RaiseValueError missing_fields_message ∧
   (∀ field, field ∈ required_fields →
             occurs (repr_str field) missing_fields_message = true) ∧
   (validate_challan_data data).1 = false ∧
   (∀ field label,
      (field, label) ∈ required_labels → data !! field = None →
      (label +:+ " is required") ∈ (validate_challan_data data).2)) ∧
  ((∀ field, field ∈ required_fields → is_Some (data !! field)) →
   output_path = None ∨ output_path = Some "" →
   ∃ bytes,
     generate_challan_pdf (pdf_document render) self data output_path
     = Return (Some bytes) None ∧
     bytes ≠ [] ∧
     take 5 bytes = pdf_marker).
Proof.
  split.
  - intros (field & Hf & Hnone).
    destruct (required_field_has_label field Hf) as (label & Hl).
    split_and!.
    + unfold generate_challan_pdf.
      by rewrite (contains_not_all data field Hf Hnone).
    + intros f Hin. unfold required_fields in Hin.
      repeat (apply elem_of_cons in Hin as [->|Hin]; [reflexivity|]).
      by apply elem_of_nil in Hin.
    + apply (validate_reports data field label Hl).
      unfold missing_or_falsy. by rewrite Hnone.
    + intros f l Hin Hn. apply (validate_reports data f l Hin).
      unfold missing_or_falsy. by rewrite Hn.
  - intros Hall Hpath.
    exists (pdf_document render (challan_story self data)). split_and!.
    + unfold generate_challan_pdf. rewrite (contains_all data Hall). simpl.
      by destruct Hpath as [-> | ->].
    + discriminate.
    + reflexivity.
Qed.

End with_layout.

Section DocumentInstances.
Import Samples.

(** C3 as stated does not hold: for a dictionary that lacks the amount
    and nothing else the error message does not contain ["Amount"]; it
    names the key ['amount'] among all seven required keys, the six that
    are present included. *)
Lemma missing_amount_message_lacks_label :
  challan_without_amount !! "amount" = None ∧
  forallb (contains challan_without_amount)
          ["challan_number"; "date"; "vehicle_number"; "owner_name";
           "violation_description"; "location"] = true ∧
  generate_challan_pdf header_only generator challan_without_amount None
  = RaiseValueError missing_fields_message ∧
  occurs "Amount" missing_fields_message = false ∧
  occurs "'challan_number'" missing_fields_message = true.
Proof. vm_compute. done. Qed.

Lemma required_present_in_complete field :
  field ∈ required_fields → is_Some (complete_challan !! field).
Proof.
  intros Hin. unfold required_fields in Hin.
  repeat (apply elem_of_cons in Hin as [->|Hin]; [by eexists|]).
  by apply elem_of_nil in Hin.
Defined.

Lemma required_present_in_zero_amount field :
  field ∈ required_fields → is_Some (challan_zero_amount !! field).
Proof.
  intros Hin. unfold required_fields in Hin.
  repeat (apply elem_of_cons in Hin as [->|Hin]; [by eexists|]).
  by apply elem_of_nil in Hin.
Defined.

(** A layout that adds nothing after the marker still gives a document
    that is not empty. *)
Lemma missing_field_raises_fixed_message_witness :
  (generate_challan_pdf (pdf_document (λ _, [])) generator
                        challan_without_amount None
   = RaiseValueError missing_fields_message ∧
   validate_challan_data challan_without_amount
   = (false, ["Amount is required"])) ∧
  ∃ bytes,
    generate_challan_pdf (pdf_document (λ _, [])) generator
                         complete_challan None
    = Return (Some bytes) None ∧ bytes ≠ [].
Proof.
  split.
  - destruct (missing_field_raises_fixed_message (λ _, []) generator
                challan_without_amount None) as [Hraise _].
    destruct Hraise as (Hmsg & _ & _ & _).
    + exists "amount". split; [|reflexivity].
      unfold required_fields. do 5 right. left.
    + split; [exact Hmsg | reflexivity].
  - destruct (missing_field_raises_fixed_message (λ _, []) generator
                complete_challan None) as [_ Hreturn].
    destruct Hreturn as (bytes & Hrun & Hne & _).
    + apply required_present_in_complete.
    + by left.
    + by exists bytes.
Defined.

Lemma falsy_required_field_witness :
  (validate_challan_data challan_zero_amount).1 = false ∧
  "Amount is required" ∈ (validate_challan_data challan_zero_amount).2 ∧
  ∃ value written,
    generate_challan_pdf header_only generator challan_zero_amount None
    = Return value written.
Proof.
  destruct (falsy_required_field header_only generator challan_zero_amount
              None "amount" "Amount" (VInt 0)) as (Hinvalid & Herr & Hgen).
  - unfold required_labels. do 5 right. left.
  - reflexivity.
  - reflexivity.
  - split_and!; [exact Hinvalid | exact Herr|].
    apply Hgen, required_present_in_zero_amount.
Defined.

End DocumentInstances.

End Document.

(** ** Decimal numerals and zero padding *)

Section Numerals.
Import Spec.
Import Py.

Lemma str_int_digits (z : Z) :
  0 ≤ z → str_int z = NilEmpty.string_of_uint (digits_of z).
Proof. destruct z; try done; lia. Qed.

Lemma digits_of_nonnil (z : Z) : digits_of z ≠ Nil.
Proof.
  unfold digits_of. destruct (Z.to_N z) as [|p]; [done|].
  apply Unsigned.to_uint_nonnil.
Qed.

Lemma digits_of_value (z : Z) : 0 ≤ z → Z.of_uint (digits_of z) = z.
Proof.
  intros Hz. unfold Z.of_uint, digits_of.
  change (Pos.of_uint ?d) with (N.of_uint d).
  rewrite DecimalN.Unsigned.of_to. lia.
Qed.

Lemma length_zeros (n : nat) : String.length (zeros n) = n.
Proof. induction n; simpl; auto. Qed.

Lemma length_string_app (s1 s2 : string) :
  String.length (s1 ++ s2)%string = (String.length s1 + String.length s2)%nat.
Proof. induction s1; simpl; auto. Qed.

(** Padding never shortens, and pads up to the width and no further. *)
Lemma zfill_length (width : nat) (s : string) :
  String.length (zfill width s) = Nat.max width (String.length s).
Proof.
  unfold zfill. destruct s as [|c rest]; simpl.
  - rewrite length_zeros. lia.
  - destruct (Ascii.eqb c "+" || Ascii.eqb c "-")%char; simpl;
      rewrite length_string_app, length_zeros; simpl; lia.
Qed.

(** Zeros in front of a numeral are digits in front of its digits. *)
Lemma zeros_numeral (n : nat) (d : uint) :
  (zeros n ++ NilEmpty.string_of_uint d)%string
  = NilEmpty.string_of_uint (Nat.iter n D0 d).
Proof. induction n; simpl; [done|]. rewrite <- IHn. reflexivity. Qed.

Lemma zfill_numeral (width : nat) (d : uint) :
  d ≠ Nil →
  zfill width (NilEmpty.string_of_uint d)
  = NilEmpty.string_of_uint
      (Nat.iter (width - String.length (NilEmpty.string_of_uint d)) D0 d).
Proof.
  intros Hd. rewrite <- zeros_numeral. unfold zfill.
  destruct d; simpl; done.
Qed.

Lemma of_uint_leading_zeros (n : nat) (d : uint) :
  Z.of_uint (Nat.iter n D0 d) = Z.of_uint d.
Proof. induction n; simpl; [done|]. exact IHn. Qed.

(** Reading a padded numeral gives the number back. *)
Lemma int_of_zfill_str (width : nat) (z : Z) :
  0 ≤ z → int_of_str (zfill width (str_int z)) = Some z.
Proof.
  intros Hz. rewrite (str_int_digits z Hz).
  rewrite zfill_numeral by apply digits_of_nonnil.
  set (d := Nat.iter _ D0 (digits_of z)).
  assert (Hd : d ≠ Nil).
  { unfold d. destruct (_ - _)%nat; simpl; [apply digits_of_nonnil|done]. }
  unfold int_of_str.
  destruct (NilEmpty.string_of_uint d) eqn:E; [by destruct d|].
  rewrite <- E.
  change (NilEmpty.string_of_uint d) with (NilEmpty.string_of_int (Pos d)).
  rewrite NilEmpty.isi. simpl. f_equal. unfold d.
  by rewrite of_uint_leading_zeros, digits_of_value.
Qed.

Lemma length_numeral (d : uint) :
  String.length (NilEmpty.string_of_uint d) = nb_digits d.
Proof. induction d; simpl; auto. Qed.

(** Reading digits after an accumulated prefix [acc]: the value lies
    between the prefix followed by zeros and by nines. *)
Lemma of_uint_acc_bounds (l : uint) (acc : positive) :
  Z.pos acc * 10 ^ Z.of_nat (nb_digits l)
  ≤ Z.pos (Pos.of_uint_acc l acc)
  < (Z.pos acc + 1) * 10 ^ Z.of_nat (nb_digits l).
Proof.
  revert acc. induction l as [|l IH|l IH|l IH|l IH|l IH|l IH|l IH|l IH|l IH|l IH];
    intros acc; simpl nb_digits; simpl Pos.of_uint_acc;
    [ rewrite Z.pow_0_r; lia | .. ];
    rewrite Nat2Z.inj_succ, Z.pow_succ_r by lia;
    match goal with
    | |- context [Pos.of_uint_acc l ?a] => specialize (IH a)
    end;
    assert (0 < 10 ^ Z.of_nat (nb_digits l)) by (apply Z.pow_pos_nonneg; lia);
    nia.
Qed.

(** A numeral without leading zero has as many digits as its value
    needs. *)
Lemma leading_digit_bounds (d : uint) (p : positive) :
  nzhead d = d → Pos.of_uint d = Npos p →
  10 ^ (Z.of_nat (nb_digits d) - 1) ≤ Z.pos p < 10 ^ Z.of_nat (nb_digits d).
Proof.
  intros Hnz Hp.
  destruct d as [|l|l|l|l|l|l|l|l|l|l]; simpl in Hp; try discriminate;
    [ exfalso; by apply (nzhead_nonzero l l) | .. ];
    injection Hp as <-; simpl nb_digits;
    rewrite Nat2Z.inj_succ, Z.pow_succ_r by lia;
    match goal with
    | |- context [Pos.of_uint_acc ?l ?a] =>
        replace (Z.succ (Z.of_nat (nb_digits l)) - 1)
          with (Z.of_nat (nb_digits l)) by lia;
        pose proof (of_uint_acc_bounds l a);
        assert (0 < 10 ^ Z.of_nat (nb_digits l))
          by (apply Z.pow_pos_nonneg; lia)
    end;
    nia.
Qed.

(** The number of characters of [str(z)] is the number of decimal digits
    of [z]. *)
Lemma str_int_bounds (z : Z) :
  0 < z →
  10 ^ (Z.of_nat (String.length (str_int z)) - 1) ≤ z
  < 10 ^ Z.of_nat (String.length (str_int z)).
Proof.
  intros Hz. destruct z as [|p|p]; try lia.
  unfold str_int. simpl. rewrite length_numeral.
  apply leading_digit_bounds.
  - pose proof (Unsigned.to_of (Pos.to_uint p)) as Hn.
    rewrite Unsigned.of_to in Hn. simpl in Hn.
    unfold unorm in Hn.
    destruct (nzhead (Pos.to_uint p)) eqn:E;
      [ exfalso; by apply (Unsigned.to_uint_nonzero p) | .. ];
      by symmetry.
  - apply Unsigned.of_to.
Qed.

Lemma str_int_length_le (z : Z) (k : nat) :
  0 ≤ z → (1 ≤ k)%nat →
  (String.length (str_int z) ≤ k)%nat ↔ z < 10 ^ Z.of_nat k.
Proof.
  intros Hz Hk. destruct (decide (z = 0)) as [->|Hne].
  - change (String.length (str_int 0)) with 1%nat.
    split; [intros _; apply Z.pow_pos_nonneg; lia | lia].
  - pose proof (str_int_bounds z ltac:(lia)) as [Hlo Hhi].
    split.
    + intros Hlen. eapply Z.lt_le_trans; [exact Hhi|].
      apply Z.pow_le_mono_r; lia.
    + intros Hlt.
      destruct (decide (String.length (str_int z) ≤ k)%nat) as [|Hgt];
        [done|exfalso].
      assert (10 ^ Z.of_nat k ≤ 10 ^ (Z.of_nat (String.length (str_int z)) - 1))
        by (apply Z.pow_le_mono_r; lia).
      lia.
Qed.

(** A padded numeral is exactly as wide as the padding when the number
    fits, and wider when it does not. *)
Lemma zfill_str_width (k : nat) (z : Z) :
  0 ≤ z → (1 ≤ k)%nat →
  (z < 10 ^ Z.of_nat k → String.length (zfill k (str_int z)) = k) ∧
  (10 ^ Z.of_nat k ≤ z → (k < String.length (zfill k (str_int z)))%nat).
Proof.
  intros Hz Hk. rewrite zfill_length.
  pose proof (str_int_length_le z k Hz Hk) as Hiff. split; intros H.
  - apply Hiff in H. lia.
  - destruct (decide (String.length (str_int z) ≤ k)%nat) as [Hle|]; [|lia].
    apply Hiff in Hle. lia.
Qed.

End Numerals.

(** ** Challan numbers *)

Section ChallanNumber.
Import Spec.
Import Orm Crud Py.

Lemma created_since_date (t : datetime) (c : row) :
  created_since t c ↔
  keyed c ∧ ∃ d, attr c "created_at"%string = VDatetime d ∧
                 Datetime.leb t d = true.
Proof.
  unfold created_since.
  destruct (attr c "created_at"%string) as [| | | | |d|]; simpl;
    try (split; [by intros [_ []] | by intros [_ (? & ? & _)]]).
  rewrite Is_true_true. split.
  - intros [Hk Hle]. split; [done|]. by exists d.
  - intros [Hk (d' & [= <-] & Hle)]. done.
Qed.

Lemma count_since_query t (rows : list row) :
  sql_count "id"
    (filter (λ c, sql_ge (attr c "created_at"%string) (VDatetime t)) rows)
  = Z.of_nat (length (filter (created_since t) rows)).
Proof.
  rewrite sql_count_keyed, list_filter_filter. done.
Qed.

Lemma datetime_ok_date (d : datetime) :
  Datetime.datetime_ok d = true →
  1 ≤ Datetime.year d ≤ 9999 ∧ 1 ≤ Datetime.month d ≤ 12 ∧
  1 ≤ Datetime.day d ≤ 31.
Proof.
  unfold Datetime.datetime_ok. rewrite !andb_true_iff, !Z.leb_le.
  intros Hok.
  assert (Datetime.days_in_month (Datetime.year d) (Datetime.month d) ≤ 31).
  { unfold Datetime.days_in_month.
    repeat match goal with |- context [if ?b then _ else _] => destruct b end;
      lia. }
  lia.
Qed.

Lemma same_date_midnight (a b : datetime) :
  same_date a b → Datetime.replace_midnight b = Datetime.replace_midnight a.
Proof.
  intros (Hy & Hm & Hd). unfold Datetime.replace_midnight.
  by rewrite Hy, Hm, Hd.
Qed.

Lemma same_date_number (a b : datetime) (n : Z) :
  same_date a b → challan_number b n = challan_number a n.
Proof.
  intros (Hy & Hm & Hd). unfold challan_number. by rewrite Hy, Hm, Hd.
Qed.

(** The call reads the clock twice, [now] for the date and [later] for
    the midnight the count starts at. *)
Lemma generate_challan_number_run (w : World) (now later : datetime) :
  clock w (ticks w) = now → clock w (S (ticks w)) = later →
  same_date now later →
  (generate_challan_number w).1
  = challan_number now (count_since (Datetime.replace_midnight now) (db w)).
Proof.
  intros Ha Hb Hsame.
  unfold generate_challan_number, mbind, mret, M_bind, M_ret, utcnow, query.
  simpl. rewrite Ha, Hb, count_since_query.
  by rewrite (same_date_midnight now later Hsame).
Qed.

(** The format of the challan number.  When the two readings of the
    clock that the call takes fall on the same day, the number is
    ["CH-"], the date of
    that day as four, two and two digits for year, month and day, a
    hyphen, and the decimal numeral of [n + 1] padded with zeros to five
    characters, [n] being the number of challans created since the
    midnight of that day.  The serial reads back as [n + 1]; it has five
    characters while [n + 1] is below 100000 and more from there on.  The
    database is not changed, and any call that reads the same date and
    the same count gets the same number. *)
Theorem challan_number_format (w : World) (now later : datetime) :
  clock w (ticks w) = now →
  clock w (S (ticks w)) = later →
  same_date now later →
  Datetime.datetime_ok now = true →
  let n := count_since (Datetime.replace_midnight now) (db w) in
  let serial := zfill 5 (str_int (n + 1)) in
  (generate_challan_number w).1 = challan_number now n ∧
  db (generate_challan_number w).2 = db w ∧
  (String.length (zfill 4 (str_int (Datetime.year now))) = 4%nat ∧
   String.length (zfill 2 (str_int (Datetime.month now))) = 2%nat ∧
   String.length (zfill 2 (str_int (Datetime.day now))) = 2%nat) ∧
  (int_of_str (zfill 4 (str_int (Datetime.year now)))
   = Some (Datetime.year now) ∧
   int_of_str (zfill 2 (str_int (Datetime.month now)))
   = Some (Datetime.month now) ∧
   int_of_str (zfill 2 (str_int (Datetime.day now)))
   = Some (Datetime.day now)) ∧
  int_of_str serial = Some (n + 1) ∧
  (n + 1 < 100000 → String.length serial = 5%nat) ∧
  (100000 ≤ n + 1 → (5 < String.length serial)%nat) ∧
  (∀ w2 now2 later2,
     clock w2 (ticks w2) = now2 → clock w2 (S (ticks w2)) = later2 →
     same_date now2 later2 → same_date now now2 →
     count_since (Datetime.replace_midnight now2) (db w2) = n →
     (generate_challan_number w2).1 = (generate_challan_number w).1).
Proof.
  intros H1 H2 Hsame Hok n serial.
  destruct (datetime_ok_date now Hok) as (Hy & Hm & Hd).
  assert (Hn : 0 ≤ n) by (unfold n, count_since; lia).
  split_and!.
  - by apply (generate_challan_number_run w now later).
  - reflexivity.
  - apply (zfill_str_width 4); lia.
  - apply (zfill_str_width 2); lia.
  - apply (zfill_str_width 2); lia.
  - apply int_of_zfill_str. lia.
  - apply int_of_zfill_str. lia.
  - apply int_of_zfill_str. lia.
  - apply int_of_zfill_str. lia.
  - intros Hlt. apply (zfill_str_width 5); lia.
  - intros Hge. apply (zfill_str_width 5); lia.
  - intros w2 now2 later2 Ha Hb Hs2 Hs Hc.
    rewrite (generate_challan_number_run w2 now2 later2 Ha Hb Hs2),
      (generate_challan_number_run w now later H1 H2 Hsame), Hc.
    by apply same_date_number.
Qed.

End ChallanNumber.

Section ChallanNumberInstances.
Import Spec.
Import Orm Crud Py Samples.

Lemma challan_number_format_witness :
  (generate_challan_number ticking_world).1 = "CH-20260105-00003"%string ∧
  int_of_str (zfill 5 (str_int 3)) = Some 3 ∧
  (generate_challan_number world1).1
  = (generate_challan_number ticking_world).1.
Proof.
  destruct (challan_number_format ticking_world
              (mkDatetime 2026 1 5 10 55 40 0)
              (mkDatetime 2026 1 5 10 55 40 1))
    as (Hnum & _ & _ & _ & Hs & _ & _ & Hsame);
    [reflexivity | reflexivity | by vm_compute | reflexivity |].
  split_and!; [exact Hnum | exact Hs |].
  apply (Hsame world1 jan5 jan5); try reflexivity; by vm_compute.
Defined.

Lemma busy_challan_created_today (k : Z) :
  created_since (Datetime.replace_midnight jan5) (busy_challan k).
Proof.
  apply created_since_date. split.
  - unfold keyed, attr, busy_challan. by rewrite lookup_insert_eq.
  - exists jan5. split; [|reflexivity].
    unfold attr, busy_challan.
    by rewrite lookup_insert_ne, lookup_insert_ne.
Qed.

Lemma busy_world_count :
  count_since (Datetime.replace_midnight jan5) (db busy_world) = 99999.
Proof.
  unfold count_since.
  change (challans (db busy_world)) with (busy_challan <$> seqZ 1 99999).
  rewrite filter_all.
  - rewrite length_fmap, length_seqZ. apply Z2Nat.id. lia.
  - intros c (k & -> & _)%list_elem_of_fmap. apply busy_challan_created_today.
Qed.

(** C2 fails on the code: on a day with 99999 challans the serial is
    [100000], six digits and not the five of the format
    [CH-YYYYMMDD-XXXXX] that the function documents. *)
Lemma serial_outgrows_five_digits :
  count_since (Datetime.replace_midnight jan5) (db busy_world) = 99999 ∧
  (generate_challan_number busy_world).1 = "CH-20260105-100000"%string ∧
  String.length (zfill 5 (str_int (99999 + 1))) = 6%nat.
Proof.
  split_and!; [apply busy_world_count | | reflexivity].
  rewrite (generate_challan_number_run busy_world jan5 jan5);
    [|reflexivity|reflexivity|by split_and!].
  rewrite busy_world_count. reflexivity.
Qed.

Section with_insert.
Variable insert : table → row → R row.

(** C1 fails on the code: [create_challan] never returns a record.  The
    call [Challan(...)] passes the keywords [issued_date], [location] and
    [description], which the class [Challan] of [models.py] does not
    have, so the constructor raises [TypeError] at the first of them:
    for every request, after the number was generated and the clock read
    four times, and with nothing stored.  Nor do the keywords include
    [additional_charges] or [total_amount]: no total is computed. *)
Theorem create_challan_raises_type_error (w : World)
    (challan : ChallanCreate) (vehicle_id officer_id : Z) :
  create_challan insert challan vehicle_id officer_id w
  = (inl (TypeError "Challan" "issued_date"),
     mkWorld (db w) (clock w) (4 + ticks w)) ∧
  (∀ challan_number issued created,
     let keywords :=
       (challan_keywords challan_number challan vehicle_id officer_id
                         issued created).*1 in
     ("fine_amount"%string ∈ keywords) ∧
     ("additional_charges"%string ∉ keywords) ∧
     ("total_amount"%string ∉ keywords)).
Proof.
  split; [reflexivity|].
  intros challan_number issued created keywords. unfold keywords. simpl.
  split_and!.
  - do 7 right. left.
  - intros Hin.
    repeat (apply elem_of_cons in Hin as [Hin|Hin]; [discriminate|]).
    by apply elem_of_nil in Hin.
  - intros Hin.
    repeat (apply elem_of_cons in Hin as [Hin|Hin]; [discriminate|]).
    by apply elem_of_nil in Hin.
Qed.

End with_insert.

(** A request for a fine of 500 on an empty store, with an insertion
    that would store the row as it is. *)
Example create_challan_fine_500_raises :
  create_challan (λ _ obj, mret obj) request500 1 7 empty_world
  = (inl (TypeError "Challan" "issued_date"),
     mkWorld empty_database (λ _, jan5) 4).
Proof. reflexivity. Qed.

End ChallanNumberInstances.

(* ===================================================================== *)
(* ===================================================================== *)
(** * Further properties of the persistence operations *)
(* ===================================================================== *)

(** ** Listings of vehicles and violation types *)

Section Pages.
Import Orm Crud.
Local Open Scope string_scope.
Local Open Scope list_scope.

Lemma pages_compose {A} (l : list A) (skip l1 l2 : nat) :
  take l1 (drop skip l) ++ take l2 (drop (skip + l1) l)
  = take (l1 + l2) (drop skip l).
Proof. by rewrite <- drop_drop, take_take_drop. Qed.

Lemma get_vehicles_run (w : World) (skip limit : nat)
    (owner_id status : pyval) :
  get_vehicles skip limit owner_id status w
  = if Py.truthy owner_id
    then (inl (AttributeError "Vehicle" "owner_id"), w)
    else if Py.truthy status
         then (inl (AttributeError "Vehicle" "status"), w)
         else (inr (take limit (drop skip (vehicles (db w)))), w).
Proof.
  unfold get_vehicles, mbind, mret, R_bind, R_ret, lift, query, class_attr,
    raise.
  by destruct (Py.truthy owner_id), (Py.truthy status).
Qed.

Lemma get_violation_types_run (w : World) (skip limit : nat)
    (severity : pyval) :
  get_violation_types skip limit severity w
  = if Py.truthy severity
    then (inl (AttributeError "ViolationType" "severity"), w)
    else (inr (take limit (drop skip (violation_types (db w)))), w).
Proof.
  unfold get_violation_types, mbind, mret, R_bind, R_ret, lift, query,
    class_attr, raise.
  by destruct (Py.truthy severity).
Qed.

(** Without a filter (each filter value false in Python's sense), two
    consecutive pages of the vehicles, and of the violation types, are
    the page of their joint size: the three calls return, and no row is
    lost or repeated at the page boundary. *)
Theorem listings_paginate (w : World) (skip l1 l2 : nat)
    (owner_id status severity : pyval) :
  Py.truthy owner_id = false →
  Py.truthy status = false →
  Py.truthy severity = false →
  ∃ v1 v2 t1 t2,
    get_vehicles skip l1 owner_id status w = (inr v1, w) ∧
    get_vehicles (skip + l1) l2 owner_id status w = (inr v2, w) ∧
    get_vehicles skip (l1 + l2) owner_id status w = (inr (v1 ++ v2), w) ∧
    get_violation_types skip l1 severity w = (inr t1, w) ∧
    get_violation_types (skip + l1) l2 severity w = (inr t2, w) ∧
    get_violation_types skip (l1 + l2) severity w = (inr (t1 ++ t2), w).
Proof.
  intros Ho Hs Hv.
  rewrite !get_vehicles_run, !get_violation_types_run, Ho, Hs, Hv.
  eexists _, _, _, _. split_and!; try reflexivity.
  - by rewrite pages_compose.
  - by rewrite pages_compose.
Qed.

(** The filters of the two listings name attributes that the classes of
    [models.py] do not have.  [get_vehicles] raises [AttributeError] for
    [owner_id] when an owner is given, and for [status] when only a
    status is; [get_violation_types] raises it for [severity] when a
    severity is given.  A filter value that is false in Python's sense is
    not applied: without a filter the call returns the page of the table
    in storage order.  No call changes the store. *)
Theorem listing_filters_raise (w : World) (skip limit : nat)
    (owner_id status severity : pyval) :
  (Py.truthy owner_id = true →
   get_vehicles skip limit owner_id status w
   = (inl (AttributeError "Vehicle" "owner_id"), w)) ∧
  (Py.truthy owner_id = false → Py.truthy status = true →
   get_vehicles skip limit owner_id status w
   = (inl (AttributeError "Vehicle" "status"), w)) ∧
  (Py.truthy owner_id = false → Py.truthy status = false →
   get_vehicles skip limit owner_id status w
   = (inr (take limit (drop skip (vehicles (db w)))), w)) ∧
  (Py.truthy severity = true →
   get_violation_types skip limit severity w
   = (inl (AttributeError "ViolationType" "severity"), w)) ∧
  (Py.truthy severity = false →
   get_violation_types skip limit severity w
   = (inr (take limit (drop skip (violation_types (db w)))), w)).
Proof.
  rewrite get_vehicles_run, get_violation_types_run.
  split_and!.
  - by intros ->.
  - by intros -> ->.
  - by intros -> ->.
  - by intros ->.
  - by intros ->.
Qed.

End Pages.

Section PagesInstances.
Import Orm Crud Samples.
Local Open Scope string_scope.
Local Open Scope list_scope.

(** The two vehicles of the sample store, a page of one vehicle each. *)
Lemma listings_paginate_witness :
  get_vehicles 0 1 VNone VNone world1 = (inr [vehicle1], world1) ∧
  get_vehicles 1 1 VNone VNone world1 = (inr [vehicle2], world1) ∧
  get_vehicles 0 2 VNone VNone world1 = (inr [vehicle1; vehicle2], world1).
Proof.
  destruct (listings_paginate world1 0 1 1 VNone VNone VNone)
    as (v1 & v2 & t1 & t2 & H1 & H2 & H12 & _);
    [reflexivity | reflexivity | reflexivity |].
  change (get_vehicles 1 1 VNone VNone world1 = (inr v2, world1)) in H2.
  change (get_vehicles 0 2 VNone VNone world1 = (inr (v1 ++ v2), world1))
    in H12.
  assert (E1 : v1 = [vehicle1]).
  { assert (H : get_vehicles 0 1 VNone VNone world1
                = (inr [vehicle1], world1)) by reflexivity.
    rewrite H1 in H. by injection H. }
  assert (E2 : v2 = [vehicle2]).
  { assert (H : get_vehicles 1 1 VNone VNone world1
                = (inr [vehicle2], world1)) by reflexivity.
    rewrite H2 in H. by injection H. }
  subst v1 v2. split_and!; [exact H1 | exact H2 | exact H12].
Defined.

(** A filter by status, and one by the owner with the id 0. *)
Example get_vehicles_with_filters :
  get_vehicles 0 100 VNone (VStr "active") world1
  = (inl (AttributeError "Vehicle" "status"), world1) ∧
  get_vehicles 0 100 (VInt 0) VNone world1
  = (inr [vehicle1; vehicle2], world1).
Proof. split; reflexivity. Qed.

End PagesInstances.


(** ** Deleting challans and vehicles *)

Section Deletion.
Import Spec.
Import Orm Crud.
Local Open Scope string_scope.
Local Open Scope list_scope.

Lemma filter_vehicle (vehicle_id : Z) (rows : list row) :
  filter (λ c, sql_eq (attr c "vehicle_id") (VInt vehicle_id)) rows
  = filter (of_vehicle vehicle_id) rows.
Proof. apply list_filter_iff. intros c. apply sql_eq_int. Qed.

(** [sum or 0.0] of a column is a number, numerically the sum of the
    column's values, and [0.0] when there is no row. *)
Lemma sum_or_zero (rows : list row) :
  ∃ total,
    Py.py_or (sql_sum "fine_amount" rows) (VFloat 0) = VFloat total ∧
    float_same total
      (float_sum (omap (λ c, as_float (attr c "fine_amount")) rows)) ∧
    (rows = [] → total = 0%float).
Proof.
  unfold sql_sum.
  destruct (omap _ rows) as [|x l] eqn:E; simpl.
  - exists 0%float. split_and!; [done|by left|done].
  - unfold Py.py_or. simpl.
    destruct (foldl PrimFloat.add x l =? 0)%float eqn:Ez; simpl.
    + exists 0%float. split_and!; [done| |done].
      left. by apply feqb_zero_sym.
    + eexists. split_and!; [done|apply float_same_refl|].
      intros ->. discriminate.
Qed.

(** Deleting a challan whose id is in the table returns [True] and
    removes the rows with that id and no other row, of any table; the
    remaining challans keep their order; the id can then neither be
    looked up nor deleted again.  Deleting an id that is not in the table
    returns [False] and changes nothing. *)
Theorem delete_challan_removes_only_it (w : World) (challan_id : Z) :
  (present Challans challan_id (db w) →
   ∃ w',
     delete_challan challan_id w = (true, w') ∧
     (∀ c, c ∈ challans (db w') ↔
           c ∈ challans (db w) ∧ attr c "id" ≠ VInt challan_id) ∧
     challans (db w') `sublist_of` challans (db w) ∧
     vehicles (db w') = vehicles (db w) ∧
     violation_types (db w') = violation_types (db w) ∧
     get_challan challan_id w' = (None, w') ∧
     delete_challan challan_id w' = (false, w')) ∧
  (absent Challans "id" (VInt challan_id) (db w) →
   delete_challan challan_id w = (false, w)).
Proof.
  split.
  - intros (v & Hin & Hid).
    destruct (present_first_with Challans "id" (VInt challan_id) (db w) v
                (is_int_dec challan_id) Hin Hid) as (r & Hfirst).
    pose proof Hfirst as (_ & _ & _ & Hr & _).
    apply first_int_present in Hfirst. simpl in Hfirst.
    unfold delete_challan, get_challan, flush_delete, modify_rows, mbind,
      mret, M_bind, M_ret, query. simpl. rewrite Hfirst. simpl. rewrite Hr.
    eexists. split; [reflexivity|]. simpl.
    assert (Hv : ∀ x, x ∈ filter (λ r0 : row, ¬ sql_eq (attr r0 "id")
                                     (VInt challan_id)) (challans (db w)) ↔
                 x ∈ challans (db w) ∧ attr x "id" ≠ VInt challan_id).
    { intros x. rewrite list_elem_of_filter, sql_eq_int. tauto. }
    assert (Hgone : filter (λ c : row, sql_eq (attr c "id") (VInt challan_id))
                      (filter (λ r0 : row, ¬ sql_eq (attr r0 "id")
                                 (VInt challan_id)) (challans (db w))) = []).
    { apply filter_none. intros x Hx Heq. apply Hv in Hx as [_ Hx].
      by apply sql_eq_int in Heq. }
    split_and!.
    + exact Hv.
    + apply sublist_filter.
    + done.
    + done.
    + by rewrite Hgone.
    + by rewrite Hgone.
  - intros Ha. apply first_int_absent in Ha. simpl in Ha.
    unfold delete_challan, mbind, mret, M_bind, M_ret, query. simpl.
    by rewrite Ha.
Qed.

Lemma vehicle_count_run (w : World) (vehicle_id : Z) :
  get_vehicle_challans_count vehicle_id w
  = (Z.of_nat (length (filter (λ c, keyed c ∧ of_vehicle vehicle_id c)
                              (challans (db w)))), w).
Proof.
  unfold get_vehicle_challans_count, mbind, mret, M_bind, M_ret, query.
  simpl. by rewrite filter_vehicle, sql_count_keyed, list_filter_filter.
Qed.

Lemma vehicle_total_run (w : World) (vehicle_id : Z) :
  get_vehicle_total_fine vehicle_id w
  = (Py.py_or (sql_sum "fine_amount"
                 (filter (of_vehicle vehicle_id) (challans (db w))))
              (VFloat 0), w).
Proof.
  unfold get_vehicle_total_fine, mbind, mret, M_bind, M_ret, query.
  simpl. by rewrite filter_vehicle.
Qed.

(** The count and the total fine of a vehicle are numbers for every
    vehicle id, known or not: the count is the number of challans that
    refer to it (and have their key), the total is numerically the sum of
    their fine amounts, and a vehicle without challans has count [0] and
    total [0.0].  Neither call changes the world. *)
Theorem vehicle_count_and_total (w : World) (vehicle_id : Z) :
  get_vehicle_challans_count vehicle_id w
  = (Z.of_nat (length (filter (λ c, keyed c ∧ of_vehicle vehicle_id c)
                              (challans (db w)))), w) ∧
  (∃ total,
     get_vehicle_total_fine vehicle_id w = (VFloat total, w) ∧
     float_same total
       (float_sum (omap (λ c, as_float (attr c "fine_amount"))
                        (filter (of_vehicle vehicle_id) (challans (db w)))))) ∧
  ((∀ c, c ∈ challans (db w) → ¬ of_vehicle vehicle_id c) →
   get_vehicle_challans_count vehicle_id w = (0, w) ∧
   get_vehicle_total_fine vehicle_id w = (VFloat 0, w)).
Proof.
  rewrite vehicle_count_run, vehicle_total_run.
  destruct (sum_or_zero (filter (of_vehicle vehicle_id) (challans (db w))))
    as (total & Htotal & Hsame & Hzero).
  split_and!.
  - done.
  - exists total. by rewrite Htotal.
  - intros Hnone. rewrite filter_none by (intros c Hc [_ Hv]; by apply (Hnone c)).
    by rewrite (filter_none _ _ Hnone).
Qed.

Lemma delete_vehicle_challans (w : World) (vehicle_id : Z) :
  present Vehicles vehicle_id (db w) →
  ∃ w',
    delete_vehicle vehicle_id w = (true, w') ∧
    challans (db w')
    = filter (λ c, ¬ of_vehicle vehicle_id c) (challans (db w)).
Proof.
  intros (v & Hin & Hid).
  destruct (present_first_with Vehicles "id" (VInt vehicle_id) (db w) v
              (is_int_dec vehicle_id) Hin Hid) as (r & Hfirst).
  pose proof Hfirst as (_ & _ & _ & Hr & _).
  apply first_int_present in Hfirst. simpl in Hfirst.
  unfold delete_vehicle, delete_vehicle_cascade, flush_delete, modify_rows,
    mbind, mret, M_bind, M_ret, query. simpl. rewrite Hfirst. simpl.
  rewrite Hr. eexists. split; [reflexivity|]. simpl.
  apply list_filter_iff. intros c. by rewrite sql_eq_int.
Qed.

(** After a vehicle is deleted its count is [0] and its total [0.0];
    the counts of the other vehicles are what they were. *)
Theorem deleted_vehicle_has_no_challans (w : World) (vehicle_id : Z) :
  present Vehicles vehicle_id (db w) →
  ∃ w',
    delete_vehicle vehicle_id w = (true, w') ∧
    get_vehicle_challans_count vehicle_id w' = (0, w') ∧
    get_vehicle_total_fine vehicle_id w' = (VFloat 0, w') ∧
    (∀ other, other ≠ vehicle_id →
       (get_vehicle_challans_count other w').1
       = (get_vehicle_challans_count other w).1).
Proof.
  intros Hpresent.
  destruct (delete_vehicle_challans w vehicle_id Hpresent)
    as (w' & Hrun & Hchallans).
  exists w'. split; [exact Hrun|].
  assert (Hnone : ∀ c, c ∈ challans (db w') → ¬ of_vehicle vehicle_id c).
  { intros c Hc. rewrite Hchallans in Hc.
    by apply list_elem_of_filter in Hc as [Hc _]. }
  rewrite !vehicle_count_run, vehicle_total_run.
  rewrite (filter_none (of_vehicle vehicle_id) _ Hnone).
  rewrite filter_none by (intros c Hc [_ Hv]; by apply (Hnone c)).
  split_and!; [done | done |].
  intros other Hother. rewrite !vehicle_count_run. simpl.
  do 2 f_equal. rewrite Hchallans, list_filter_filter.
  apply list_filter_iff. intros c. unfold of_vehicle. split; [tauto|].
  intros [Hk Hc]. split_and!; [done|done|]. rewrite Hc. congruence.
Qed.

End Deletion.

Section DeletionInstances.
Import Spec.
Import Orm Crud Samples.
Local Open Scope string_scope.
Local Open Scope list_scope.

Lemma delete_challan_removes_only_it_witness :
  (∃ w', delete_challan 2 world1 = (true, w') ∧
         challans (db w') = [challan1; challan3] ∧
         delete_challan 2 w' = (false, w')) ∧
  delete_challan 9 world1 = (false, world1).
Proof.
  destruct (delete_challan_removes_only_it world1 2) as [Hpresent _].
  destruct (delete_challan_removes_only_it world1 9) as [_ Habsent].
  split.
  - destruct Hpresent as (w' & Hrun & _ & _ & _ & _ & _ & Hagain).
    + exists challan2. split; [right; left | reflexivity].
    + exists w'. split_and!; [exact Hrun | | exact Hagain].
      assert (Hrows : challans (db (delete_challan 2 world1).2)
                      = [challan1; challan3]) by reflexivity.
      by rewrite Hrun in Hrows.
  - apply Habsent. intros r Hr. simpl in Hr.
    repeat (apply elem_of_cons in Hr as [->|Hr]);
      [ vm_compute; discriminate .. | by apply elem_of_nil in Hr ].
Defined.

(** A vehicle that has no challan, here one that is not in the table. *)
Lemma vehicle_count_and_total_witness :
  get_vehicle_challans_count 9 world1 = (0, world1) ∧
  get_vehicle_total_fine 9 world1 = (VFloat 0, world1).
Proof.
  destruct (vehicle_count_and_total world1 9) as (_ & _ & Hzero).
  apply Hzero. intros r Hr. simpl in Hr.
  repeat (apply elem_of_cons in Hr as [->|Hr]);
    [ vm_compute; discriminate .. | by apply elem_of_nil in Hr ].
Defined.

Lemma deleted_vehicle_has_no_challans_witness :
  ∃ w',
    delete_vehicle 1 world1 = (true, w') ∧
    get_vehicle_challans_count 1 w' = (0, w') ∧
    get_vehicle_total_fine 1 w' = (VFloat 0, w') ∧
    (get_vehicle_challans_count 2 w').1 = 1.
Proof.
  destruct (deleted_vehicle_has_no_challans world1 1)
    as (w' & Hrun & Hcount & Hfine & Hother).
  - exists vehicle1. split; [left | reflexivity].
  - exists w'. split_and!; [exact Hrun | exact Hcount | exact Hfine |].
    rewrite Hother by lia. reflexivity.
Defined.

End DeletionInstances.

(** ** Calls that name an attribute their class does not have *)

Section Undeclared.
Import Spec.
Import Orm Crud.
Local Open Scope string_scope.
Local Open Scope list_scope.

(** [get_pending_challans] orders by [Challan.issued_date], and
    [get_violation_type_statistics] and [get_violation_type_by_code] name
    [ViolationType.code]; the classes of [models.py] have [issue_date]
    and [violation_code] and no attribute of these names.  Each of the
    three calls raises [AttributeError], on every store and for every
    argument, and leaves the store as it was. *)
Theorem undeclared_columns_raise (w : World) (limit : nat) (code : string) :
  get_pending_challans limit w
  = (inl (AttributeError "Challan" "issued_date"), w) ∧
  get_violation_type_statistics w
  = (inl (AttributeError "ViolationType" "code"), w) ∧
  get_violation_type_by_code code w
  = (inl (AttributeError "ViolationType" "code"), w) ∧
  declares Challans "issue_date" = true ∧
  declares ViolationTypes "violation_code" = true.
Proof. split_and!; reflexivity. Qed.

(** Without a start date (or with one that is false in Python's sense)
    [get_paid_challans_count] returns the number of challans with the
    status ['paid'].  With a start date it filters on
    [Challan.issued_date], which the class does not have, and raises
    [AttributeError]: so it does for every datetime.  The store is not
    changed. *)
Theorem paid_count_by_start (w : World) (start_date : pyval) :
  (Py.truthy start_date = false →
   get_paid_challans_count start_date w
   = (inr (Z.of_nat (length (filter (λ c, keyed c ∧ has_status "paid" c)
                                    (challans (db w))))), w)) ∧
  (Py.truthy start_date = true →
   get_paid_challans_count start_date w
   = (inl (AttributeError "Challan" "issued_date"), w)) ∧
  (∀ d, get_paid_challans_count (VDatetime d) w
        = (inl (AttributeError "Challan" "issued_date"), w)).
Proof.
  unfold get_paid_challans_count, mbind, mret, R_bind, R_ret, lift, query,
    class_attr, raise. simpl.
  split_and!.
  - intros ->. by rewrite filter_status, sql_count_keyed, list_filter_filter.
  - by intros ->.
  - done.
Qed.

End Undeclared.

Section UndeclaredInstances.
Import Spec.
Import Orm Crud Samples.
Local Open Scope string_scope.

(** Two of the three challans of the sample store are paid. *)
Example paid_count_in_world1 :
  get_paid_challans_count VNone world1 = (inr 2, world1) ∧
  get_paid_challans_count (VDatetime jan4) world1
  = (inl (AttributeError "Challan" "issued_date"), world1).
Proof. split; reflexivity. Qed.

End UndeclaredInstances.

(** ** Reading back what was written *)

Section ReadBack.
Import Spec.
Import Orm Crud.
Local Open Scope string_scope.
Local Open Scope list_scope.








End ReadBack.

Section ReadBackInstances.
Import Spec.
Import Orm Crud Samples.
Local Open Scope string_scope.
Local Open Scope list_scope.


End ReadBackInstances.

(** ** Challan numbers after a deletion *)

Section Renumbering.
Import Spec.
Import Orm Crud.
Local Open Scope string_scope.
Local Open Scope list_scope.

Lemma delete_challan_run (w : World) (id : Z) :
  present Challans id (db w) →
  delete_challan id w
  = (true,
     mkWorld (set_rows Challans
                (filter (λ r, ¬ sql_eq (attr r "id") (VInt id))
                        (challans (db w)))
                (db w))
             (clock w) (ticks w)).
Proof.
  intros (v & Hin & Hid).
  destruct (present_first_with Challans "id" (VInt id) (db w) v
              (is_int_dec id) Hin Hid) as (r & Hfirst).
  pose proof Hfirst as (_ & _ & _ & Hr & _).
  apply first_int_present in Hfirst. simpl in Hfirst.
  unfold delete_challan, flush_delete, modify_rows, mbind, mret, M_bind,
    M_ret, query. simpl. rewrite Hfirst. simpl. by rewrite Hr.
Qed.

(** Under distinct keys, removing the rows with the key of [c] removes
    [c] and nothing else. *)
Lemma filter_remove_key (rows : list row) (ids : list Z) (c : row) (id : Z) :
  primary_keys rows ids → c ∈ rows → attr c "id" = VInt id →
  ∃ l1 l2,
    rows = l1 ++ c :: l2 ∧
    filter (λ r, ¬ sql_eq (attr r "id") (VInt id)) rows = l1 ++ l2.
Proof.
  intros [Hids Hnd] Hc Hid.
  apply list_elem_of_split in Hc as (l1 & l2 & ->).
  exists l1, l2. split; [done|].
  rewrite fmap_app, fmap_cons in Hids. symmetry in Hids.
  apply fmap_app_inv in Hids as (i1 & i2 & H1 & H2 & ->).
  destruct i2 as [|z i2]; [done|]. rewrite fmap_cons in H2.
  injection H2 as Hz H2. rewrite Hid in Hz. injection Hz as <-.
  apply NoDup_app in Hnd as (_ & Hdisj & Hnd2).
  apply NoDup_cons in Hnd2 as [Hnot2 _].
  assert (Hkeep : ∀ (l : list row) (i : list Z),
            (λ r, attr r "id") <$> l = VInt <$> i → id ∉ i →
            filter (λ r, ¬ sql_eq (attr r "id") (VInt id)) l = l).
  { intros l i Hl Hni. apply filter_all.
    intros r Hr Heq. apply sql_eq_int in Heq.
    assert (Hin : attr r "id" ∈ (λ r, attr r "id") <$> l).
    { apply list_elem_of_fmap. by exists r. }
    rewrite Hl, Heq in Hin.
    apply list_elem_of_fmap in Hin as (z & [= <-] & Hz). done. }
  rewrite filter_app, filter_cons_False.
  - rewrite (Hkeep l1 i1 H1), (Hkeep l2 i2 H2); [done|done|].
    intros Hin. apply (Hdisj id Hin). left.
  - intros Hneg. apply Hneg. by apply sql_eq_int.
Qed.

(** The serial of the next challan number is one more than the number
    of challans created today that are still stored: after deleting a
    challan created today the next number has the serial [n], not
    [n + 1], the serial that was given out when the latest of the [n]
    challans of the day was created.  (Distinct keys; the two readings of
    the clock are on the same day.) *)
Theorem deleting_todays_challan_frees_a_serial (w : World) (ids : list Z)
    (c : row) (id : Z) (now later : datetime) :
  primary_keys (challans (db w)) ids →
  c ∈ challans (db w) → attr c "id" = VInt id →
  created_since (Datetime.replace_midnight now) c →
  clock w (ticks w) = now → clock w (S (ticks w)) = later →
  same_date now later →
  let n := count_since (Datetime.replace_midnight now) (db w) in
  let w' := (delete_challan id w).2 in
  (1 ≤ n)%Z ∧
  (generate_challan_number w).1 = challan_number now n ∧
  (generate_challan_number w').1 = challan_number now (n - 1).
Proof.
  intros Hkeys Hc Hid Hcreated Hnow Hlater Hsame n w'.
  destruct (filter_remove_key _ _ c id Hkeys Hc Hid)
    as (l1 & l2 & Hrows & Hrest).
  assert (Hw' : w' = mkWorld (set_rows Challans (l1 ++ l2) (db w))
                             (clock w) (ticks w)).
  { unfold w'. rewrite delete_challan_run by (by exists c). simpl.
    by rewrite Hrest. }
  assert (Hn : n = Z.of_nat (length (filter
                 (created_since (Datetime.replace_midnight now))
                 (l1 ++ l2))) + 1).
  { unfold n, count_since. rewrite Hrows, !filter_app, filter_cons_True
      by done. rewrite !length_app. simpl. lia. }
  split_and!.
  - lia.
  - by apply (generate_challan_number_run w now later).
  - rewrite (generate_challan_number_run w' now later);
      [|by rewrite Hw'..|done].
    f_equal. rewrite Hw'. unfold count_since. simpl. lia.
Qed.

End Renumbering.

Section RenumberingInstances.
Import Spec.
Import Orm Crud Samples.
Local Open Scope string_scope.
Local Open Scope list_scope.

Lemma primary_keys_world1 : primary_keys (challans (db world1)) [1; 2; 3].
Proof.
  split; [reflexivity|].
  repeat (apply NoDup_cons; split;
          [intros Hin;
           repeat (apply elem_of_cons in Hin as [Hin|Hin]; [lia|]);
           by apply elem_of_nil in Hin|]).
  apply NoDup_nil_2.
Qed.

(** Deleting the first challan of 5 January makes the generator propose
    the number that the second challan of that day has. *)
Lemma deleting_todays_challan_frees_a_serial_witness :
  let w' := (delete_challan 2 world1).2 in
  (generate_challan_number world1).1 = "CH-20260105-00003" ∧
  (generate_challan_number w').1 = "CH-20260105-00002" ∧
  challan3 ∈ challans (db w') ∧
  attr challan3 "challan_number" = VStr "CH-20260105-00002".
Proof.
  destruct (deleting_todays_challan_frees_a_serial world1 [1; 2; 3]
              challan2 2 jan5 jan5 primary_keys_world1)
    as (_ & Hbefore & Hafter).
  - right; left.
  - reflexivity.
  - by vm_compute.
  - reflexivity.
  - reflexivity.
  - by vm_compute.
  - split_and!; [exact Hbefore | exact Hafter | right; left | reflexivity].
Defined.

End RenumberingInstances.

(** ** Creating vehicles and violation types *)

Section Creation.
Import Orm Crud.
Local Open Scope string_scope.
Local Open Scope list_scope.
Variable insert : table → row → R row.

(** [create_vehicle] passes the keyword [owner_id] (and [make], [model],
    [year], [status]) to the class [Vehicle], and [create_violation_type]
    the keyword [code] (and [severity], [points]) to the class
    [ViolationType]; the classes of [models.py] have no such attributes.
    Each call raises [TypeError] at the first such keyword, for every
    request: it reads the clock once and stores nothing, whatever the
    insertion would have done. *)
Theorem create_calls_raise_type_error (w : World) (vehicle : VehicleCreate)
    (owner_id : Z) (violation_type : ViolationTypeCreate) :
  create_vehicle insert vehicle owner_id w
  = (inl (TypeError "Vehicle" "owner_id"),
     mkWorld (db w) (clock w) (S (ticks w))) ∧
  create_violation_type insert violation_type w
  = (inl (TypeError "ViolationType" "code"),
     mkWorld (db w) (clock w) (S (ticks w))) ∧
  declares Vehicles "registration_number" = true ∧
  declares Vehicles "vehicle_type" = true ∧
  (∀ k, k ∈ ["owner_id"; "make"; "model"; "year"; "status"] →
        declares Vehicles k = false) ∧
  (∀ k, k ∈ ["code"; "severity"; "points"] →
        declares ViolationTypes k = false).
Proof.
  split_and!; try reflexivity.
  - intros k Hk.
    repeat (apply elem_of_cons in Hk as [->|Hk]; [reflexivity|]).
    by apply elem_of_nil in Hk.
  - intros k Hk.
    repeat (apply elem_of_cons in Hk as [->|Hk]; [reflexivity|]).
    by apply elem_of_nil in Hk.
Qed.

End Creation.

(** ** The detector's threshold, history and tables *)

Section DetectorState.
Import Detector.
Context {Frame : Type}.
Local Open Scope string_scope.
Local Open Scope list_scope.

(** Among the thresholds from zero on, only zero is reached by a
    confidence of zero. *)
Lemma fleb_zero_iff_zero (t : float) :
  (0 <=? t)%float = true →
  (t <=? 0)%float = true ↔ (t =? 0)%float = true.
Proof.
  rewrite !FloatAxioms.leb_spec, FloatAxioms.eqb_spec, Prim2SF_zero.
  destruct (Prim2SF t) as [sg|sg| |sg m e]; try destruct sg; simpl; done.
Qed.

Lemma detect_all_violations_run (self : ViolationDetector) (frame : Frame)
    (vehicle_region : bbox) (now1 now2 now3 : datetime) :
  detect_all_violations self frame vehicle_region now1 now2 now3
  = if (confidence_threshold self <=? 0)%float
    then ([helmet_candidate vehicle_region now1;
           seat_belt_candidate vehicle_region now2;
           tripling_candidate vehicle_region now3],
          mkViolationDetector (confidence_threshold self)
            (violation_history self ++
               [helmet_candidate vehicle_region now1;
                seat_belt_candidate vehicle_region now2;
                tripling_candidate vehicle_region now3]))
    else ([], self).
Proof.
  unfold detect_all_violations, detect_helmet_violation,
    detect_seat_belt_violation, detect_tripling_violation. simpl.
  destruct (confidence_threshold self <=? 0)%float; simpl; [done|].
  destruct self. simpl. by rewrite app_nil_r.
Qed.

(** [detect_all_violations] reports all three violations or none: the
    helmet, seat belt and tripling records in this order when the
    threshold is at most zero, and nothing otherwise.  The history grows
    by exactly what is reported, the threshold stays, and clearing the
    history empties it and keeps the threshold. *)
Theorem detection_is_all_or_nothing (self : ViolationDetector)
    (frame : Frame) (vehicle_region : bbox) (now1 now2 now3 : datetime) :
  let result :=
    detect_all_violations self frame vehicle_region now1 now2 now3 in
  (result.1 = [] ∨
   result.1 = [helmet_candidate vehicle_region now1;
               seat_belt_candidate vehicle_region now2;
               tripling_candidate vehicle_region now3]) ∧
  (result.1 ≠ [] ↔ (confidence_threshold self <=? 0)%float = true) ∧
  get_history result.2 = get_history self ++ result.1 ∧
  confidence_threshold result.2 = confidence_threshold self ∧
  get_history (clear_history result.2) = [] ∧
  confidence_threshold (clear_history result.2) = confidence_threshold self.
Proof.
  intros result. unfold result. rewrite detect_all_violations_run.
  destruct (confidence_threshold self <=? 0)%float; simpl.
  - split_and!; try done. by right.
  - split_and!; try done.
    + by left.
    + unfold get_history. by rewrite app_nil_r.
Qed.

(** [set_confidence_threshold] accepts the thresholds from 0 to 1 and
    raises for every other one, a threshold that is not a number
    included.  An accepted threshold is stored and the history is kept;
    with it the detector reports violations exactly when the threshold
    is zero. *)
Theorem threshold_setter_range (self : ViolationDetector) (frame : Frame)
    (vehicle_region : bbox) (now1 now2 now3 : datetime)
    (threshold : float) :
  ((0 <=? threshold)%float = true ∧ (threshold <=? 1)%float = true →
   ∃ self',
     set_confidence_threshold self threshold = inr self' ∧
     confidence_threshold self' = threshold ∧
     get_history self' = get_history self ∧
     ((detect_all_violations self' frame vehicle_region
                             now1 now2 now3).1 ≠ []
      ↔ (threshold =? 0)%float = true)) ∧
  (¬ ((0 <=? threshold)%float = true ∧ (threshold <=? 1)%float = true) →
   set_confidence_threshold self threshold
   = inl "Confidence threshold must be between 0 and 1") ∧
  (is_nan threshold = true →
   set_confidence_threshold self threshold
   = inl "Confidence threshold must be between 0 and 1").
Proof.
  assert (Hreject :
    ¬ ((0 <=? threshold)%float = true ∧ (threshold <=? 1)%float = true) →
    set_confidence_threshold self threshold
    = inl "Confidence threshold must be between 0 and 1").
  { intros Hnot. unfold set_confidence_threshold.
    destruct (0 <=? threshold)%float, (threshold <=? 1)%float; simpl;
      try done. by destruct Hnot. }
  split_and!.
  - intros [H0 H1]. unfold set_confidence_threshold. rewrite H0, H1.
    cbn [negb andb]. eexists. do 3 (split; [reflexivity|]).
    rewrite detect_all_violations_run. simpl.
    rewrite <- (fleb_zero_iff_zero threshold H0).
    destruct (threshold <=? 0)%float; simpl; split; try done.
  - exact Hreject.
  - intros Hnan. apply Hreject. intros [H0 _]. revert Hnan H0.
    unfold is_nan. rewrite FloatAxioms.leb_spec, FloatAxioms.eqb_spec,
      Prim2SF_zero.
    destruct (Prim2SF threshold) as [sg|sg| |sg m e]; try destruct sg;
      simpl; try done.
    unfold SFeqb, SFcompare.
    rewrite Z.compare_refl, ?Pos.compare_cont_refl, ?Pos.compare_refl.
    done.
Qed.

(** The tables of severities and fines cover every violation type, so
    the defaults ["low"] and [0] of the lookups are never used: the only
    type without a fine is [NONE], which is also the only one with the
    severity ["none"].  Every violation that [detect_all_violations]
    reports is critical or high and has a fine of 500 or 1000. *)
Theorem reported_violations_are_fined (self : ViolationDetector)
    (frame : Frame) (vehicle_region : bbox) (now1 now2 now3 : datetime) :
  (∀ v, get_violation_severity self v ≠ "low") ∧
  (∀ v, get_violation_severity self v = "none" ↔ violation_type v = NONE) ∧
  (∀ t, get_violation_fine self t = 0 ↔ t = NONE) ∧
  (∀ v, v ∈ (detect_all_violations self frame vehicle_region
                                   now1 now2 now3).1 →
        (get_violation_severity self v = "critical" ∨
         get_violation_severity self v = "high") ∧
        (get_violation_fine self (violation_type v) = 500 ∨
         get_violation_fine self (violation_type v) = 1000)).
Proof.
  split_and!.
  - intros [[] ? ? ? ? ?]; vm_compute; discriminate.
  - intros [[] ? ? ? ? ?]; vm_compute; split; done.
  - intros []; vm_compute; split; done.
  - intros v. rewrite detect_all_violations_run.
    destruct (confidence_threshold self <=? 0)%float; simpl.
    + rewrite !elem_of_cons, elem_of_nil.
      intros [->|[->|[->|[]]]]; vm_compute; auto.
    + by rewrite elem_of_nil.
Qed.

End DetectorState.

(** ** Validation and content of the documents *)

Section Validation.
Import Spec.
Import Pdf.
Local Open Scope string_scope.
Local Open Scope list_scope.

Lemma validate_challan_data_run (data : gmap string pyval) :
  validate_challan_data data
  = (Nat.eqb (length (validation_errors required_labels data)) 0,
     validation_errors required_labels data).
Proof. reflexivity. Qed.

Lemma validate_receipt_data_run (data : gmap string pyval) :
  validate_receipt_data data
  = (Nat.eqb (length (validation_errors receipt_required_labels data)) 0,
     validation_errors receipt_required_labels data).
Proof. reflexivity. Qed.

Lemma required_step_origin data labels errors e :
  e ∈ foldl (required_step data) errors labels →
  e ∈ errors ∨
  ∃ fl, fl ∈ labels ∧ missing_or_falsy data fl.1 = true ∧
        e = fl.2 +:+ " is required".
Proof.
  revert errors. induction labels as [|fl labels IH]; intros errors He.
  - by left.
  - simpl in He. apply IH in He as [He|(fl' & Hin & Hm & ->)].
    + unfold required_step in He.
      destruct (missing_or_falsy data fl.1) eqn:Hm; [|by left].
      apply elem_of_app in He as [He|He]; [by left|].
      apply list_elem_of_singleton in He as ->.
      right. exists fl. split_and!; [left|done|done].
    + right. exists fl'. split_and!; [by right|done|done].
Qed.

Lemma required_errors_nil data labels :
  foldl (required_step data) [] labels = [] ↔
  ∀ fl, fl ∈ labels → missing_or_falsy data fl.1 = false.
Proof.
  split.
  - intros Hnil [field label] Hin.
    destruct (missing_or_falsy data field) eqn:Hm; [|done].
    pose proof (required_step_reports data labels [] field label Hin Hm)
      as He.
    rewrite Hnil in He. by apply elem_of_nil in He.
  - intros Hall.
    destruct (foldl (required_step data) [] labels) as [|e l] eqn:E;
      [done|].
    assert (He : e ∈ foldl (required_step data) [] labels)
      by (rewrite E; left).
    apply required_step_origin in He as [He|(fl & Hin & Hm & _)].
    + by apply elem_of_nil in He.
    + by rewrite (Hall fl Hin) in Hm.
Qed.

Lemma present_and_true data field :
  missing_or_falsy data field = false ↔
  ∃ v, data !! field = Some v ∧ Py.truthy v = true.
Proof.
  unfold missing_or_falsy. destruct (data !! field) as [v|].
  - rewrite negb_false_iff. split; [by exists v|by intros (? & [= <-] & ?)].
  - split; [done|by intros (? & ? & _)].
Qed.

(** The validation finds no error exactly when the data is complete. *)
Lemma validation_errors_nil labels data :
  "amount" ∈ labels.*1 →
  validation_errors labels data = [] ↔ complete labels.*1 data.
Proof.
  intros Hamount. unfold validation_errors, complete, get. split.
  - intros Hnil.
    assert (Hfold : foldl (required_step data) [] labels = []).
    { destruct (_ && _); [|done]. by destruct (foldl _ _ _). }
    rewrite Hfold in Hnil.
    assert (Hall : ∀ field, field ∈ labels.*1 →
              ∃ v, data !! field = Some v ∧ Py.truthy v = true).
    { intros field ([f l] & -> & Hin)%list_elem_of_fmap.
      apply present_and_true.
      by apply (proj1 (required_errors_nil data labels) Hfold (f, l)). }
    split; [exact Hall|].
    intros v Hv. destruct (Hall "amount" Hamount) as (v' & Hv' & Ht).
    rewrite Hv in Hv'. injection Hv' as <-.
    rewrite Hv in Hnil. simpl in Hnil. rewrite Ht in Hnil.
    by destruct (Py.is_int_or_float v).
  - intros [Hall Hnum].
    assert (Hfold : foldl (required_step data) [] labels = []).
    { apply required_errors_nil. intros [f l] Hin. apply present_and_true.
      apply Hall. apply list_elem_of_fmap. by exists (f, l). }
    rewrite Hfold.
    destruct (data !! "amount") as [v|] eqn:Hv; simpl; [|done].
    rewrite (Hnum v eq_refl). by rewrite andb_false_r.
Qed.

Lemma complete_contains fields fields' data :
  fields' ⊆ fields → complete fields data →
  forallb (contains data) fields' = true.
Proof.
  intros Hsub [Hall _]. apply Is_true_true, forallb_True, Forall_forall.
  intros f Hf. unfold contains. apply bool_decide_pack.
  destruct (Hall f (Hsub f Hf)) as (v & -> & _). by eexists.
Qed.

Lemma length_zero_iff_nil {A} (l : list A) :
  Nat.eqb (length l) 0 = true ↔ l = [].
Proof. destruct l; simpl; split; done. Qed.

Lemma string_app_cancel_r (s1 s2 t : string) :
  s1 +:+ t = s2 +:+ t → s1 = s2.
Proof.
  revert s2. induction s1 as [|c s1 IH]; intros [|c' s2] H.
  - done.
  - exfalso. apply (f_equal String.length) in H.
    change (String c' s2 +:+ t) with (String c' (s2 +:+ t)) in H.
    change ("" +:+ t) with t in H. simpl in H.
    rewrite length_string_app in H. lia.
  - exfalso. apply (f_equal String.length) in H.
    change (String c s1 +:+ t) with (String c (s1 +:+ t)) in H.
    change ("" +:+ t) with t in H. simpl in H.
    rewrite length_string_app in H. lia.
  - change (String c (s1 +:+ t) = String c' (s2 +:+ t)) in H.
    injection H as -> H. f_equal. by apply IH.
Qed.

(** The two errors about the amount exclude each other. *)
Lemma amount_errors_exclusive labels data :
  (∀ fl, fl ∈ labels → fl.2 = "Amount" → fl.1 = "amount") →
  ¬ ("Amount is required" ∈ validation_errors labels data ∧
     "Amount must be a number" ∈ validation_errors labels data).
Proof.
  intros Hlabels [Hreq Hnum]. unfold validation_errors in *.
  destruct (Py.truthy (get data "amount" VNone)) eqn:Ht; simpl in *.
  2:{ apply required_step_origin in Hnum
        as [He|([f l] & _ & _ & He)]; [by apply elem_of_nil in He|].
      simpl in He.
      assert (Hlen : String.length "Amount must be a number"
                     = String.length (l +:+ " is required"))
        by (by rewrite <- He).
      rewrite length_string_app in Hlen. simpl in Hlen.
      do 12 (destruct l as [|? l]; [try (simpl in Hlen; lia)|]);
        try (simpl in Hlen; lia).
      cbv [String.append] in He. congruence. }
  assert (Hnot : "Amount is required"
                 ∉ foldl (required_step data) [] labels).
  { intros Hr. apply required_step_origin in Hr
      as [He|([f l] & Hin & Hm & He)]; [by apply elem_of_nil in He|].
    simpl in *.
    assert (Hl : l = "Amount").
    { symmetry. apply (string_app_cancel_r _ _ " is required"). exact He. }
    pose proof (Hlabels (f, l) Hin Hl) as Hf. simpl in Hf. subst f.
    unfold missing_or_falsy in Hm. unfold get in Ht.
    destruct (data !! "amount"); simpl in *; [|done].
    by rewrite Ht in Hm. }
  destruct (negb (Py.is_int_or_float (get data "amount" VNone))); [|done].
  apply elem_of_app in Hreq as [Hreq|Hreq]; [done|].
  apply list_elem_of_singleton in Hreq. discriminate.
Qed.

(** [validate_challan_data] accepts a dictionary exactly when each of
    the seven required fields is present with a true value and the
    amount is an [int] or a [float]; this is when it reports no error.
    It never reports both that the amount is required and that it must
    be a number.  Data it accepts is data [generate_challan_pdf] does
    not raise for. *)
Theorem valid_challan_data_iff (data : gmap string pyval) :
  ((validate_challan_data data).1 = true ↔ complete required_fields data) ∧
  ((validate_challan_data data).1 = true ↔
   (validate_challan_data data).2 = []) ∧
  ¬ ("Amount is required" ∈ (validate_challan_data data).2 ∧
     "Amount must be a number" ∈ (validate_challan_data data).2) ∧
  ((validate_challan_data data).1 = true →
   ∀ build self output_path,
     ∃ value written,
       generate_challan_pdf build self data output_path
       = Return value written).
Proof.
  rewrite validate_challan_data_run. simpl.
  assert (Hamount : "amount" ∈ required_labels.*1)
    by (vm_compute; do 5 right; left).
  assert (Hiff : Nat.eqb (length (validation_errors required_labels data)) 0
                 = true ↔ complete required_fields data).
  { rewrite length_zero_iff_nil.
    apply (validation_errors_nil required_labels data Hamount). }
  split_and!.
  - exact Hiff.
  - apply length_zero_iff_nil.
  - apply amount_errors_exclusive. intros fl Hin.
    unfold required_labels in Hin.
    repeat (apply elem_of_cons in Hin as [->|Hin]; [by vm_compute|]).
    by apply elem_of_nil in Hin.
  - intros Hvalid build self output_path. apply Hiff in Hvalid.
    unfold generate_challan_pdf.
    rewrite (complete_contains required_fields required_fields data)
      by done.
    simpl. destruct output_path as [path|]; [|by eexists _, _].
    destruct (negb (String.eqb path "")); by eexists _, _.
Qed.

(** [validate_receipt_data] accepts a dictionary exactly when each of
    the seven required fields of a receipt is present with a true value
    and the amount is an [int] or a [float]; this is when it reports no
    error.  It never reports both that the amount is required and that it
    must be a number.  Data it accepts is data [generate_receipt_pdf]
    does not raise for. *)
Theorem valid_receipt_data_iff (data : gmap string pyval) :
  ((validate_receipt_data data).1 = true ↔
   complete receipt_required_fields data) ∧
  ((validate_receipt_data data).1 = true ↔
   (validate_receipt_data data).2 = []) ∧
  ¬ ("Amount is required" ∈ (validate_receipt_data data).2 ∧
     "Amount must be a number" ∈ (validate_receipt_data data).2) ∧
  ((validate_receipt_data data).1 = true →
   ∀ build self output_path now,
     ∃ value written,
       generate_receipt_pdf build self data output_path now
       = Return value written).
Proof.
  rewrite validate_receipt_data_run. simpl.
  assert (Hamount : "amount" ∈ receipt_required_labels.*1)
    by (vm_compute; do 3 right; left).
  assert (Hiff : Nat.eqb (length (validation_errors receipt_required_labels
                                                    data)) 0
                 = true ↔ complete receipt_required_fields data).
  { rewrite length_zero_iff_nil.
    apply (validation_errors_nil receipt_required_labels data Hamount). }
  split_and!.
  - exact Hiff.
  - apply length_zero_iff_nil.
  - apply amount_errors_exclusive. intros fl Hin.
    unfold receipt_required_labels in Hin.
    repeat (apply elem_of_cons in Hin as [->|Hin]; [by vm_compute|]).
    by apply elem_of_nil in Hin.
  - intros Hvalid build self output_path now. apply Hiff in Hvalid.
    unfold generate_receipt_pdf.
    rewrite (complete_contains receipt_required_fields
               receipt_required_fields data) by done.
    simpl. destruct output_path as [path|]; [|by eexists _, _].
    destruct (negb (String.eqb path "")); by eexists _, _.
Qed.

End Validation.

(** ** What the documents show *)

Section Content.
Import Spec.
Import Pdf.
Local Open Scope string_scope.
Local Open Scope list_scope.

Lemma contains_is_Some data fields field :
  forallb (contains data) fields = true → field ∈ fields →
  is_Some (data !! field).
Proof.
  intros Hall Hin. apply Is_true_true, forallb_True in Hall.
  rewrite Forall_forall in Hall. specialize (Hall field Hin).
  unfold contains in Hall. by apply bool_decide_unpack in Hall.
Qed.

Lemma challan_fields_printed self data field :
  field ∈ required_fields → is_Some (data !! field) →
  ∃ v, data !! field = Some v ∧ printed v (challan_story self data).
Proof.
  intros Hin [v Hv]. exists v. split; [done|].
  unfold printed, cells, challan_story, _create_challan_header,
    _create_challan_details_section, _create_vehicle_info_section,
    _create_violation_section, _create_amount_section,
    _create_signature_section, get.
  unfold required_fields in Hin.
  destruct (Py.truthy (default VNone (data !! "notes")));
    repeat (apply elem_of_cons in Hin as [->|Hin];
            [rewrite Hv; simpl;
             first [ left;
                     repeat first [apply list_elem_of_here
                                  |apply list_elem_of_further]; fail
                   | right;
                     repeat first [apply list_elem_of_here
                                  |apply list_elem_of_further]; fail ]|]);
    by apply elem_of_nil in Hin.
Qed.

Lemma receipt_fields_printed self data now field :
  field ∈ receipt_required_fields → is_Some (data !! field) →
  ∃ v, data !! field = Some v ∧ printed v (receipt_story self data now).
Proof.
  intros Hin [v Hv]. exists v. split; [done|].
  unfold printed, cells, receipt_story, _create_receipt_header,
    _create_receipt_details_section, _create_payment_info_section,
    _create_challan_reference_section, _create_receipt_footer, get.
  unfold receipt_required_fields in Hin.
  repeat (apply elem_of_cons in Hin as [->|Hin];
          [rewrite Hv; simpl;
           first [ left;
                   repeat first [apply list_elem_of_here
                                |apply list_elem_of_further]; fail
                 | right;
                   repeat first [apply list_elem_of_here
                                |apply list_elem_of_further]; fail ]|]);
    by apply elem_of_nil in Hin.
Qed.

Section with_layout.
Variable build : list flowable → list Byte.byte.

(** For a generator whose title has ASCII characters only: when
    [generate_challan_pdf] returns, the value of each of the seven
    required fields is printed in a table of the document, the document
    begins with the title in capitals, and the notes are printed exactly
    when the data has notes with a true value.  The document is either
    returned as bytes (no output path, or an empty one) or written to
    the output path with [None] returned, and never both. *)
Theorem challan_document_content (self : PDFGenerator)
    (data : gmap string pyval) (output_path : option string)
    (value : option (list Byte.byte))
    (written : option (string * list Byte.byte)) :
  ascii_text (title self) →
  generate_challan_pdf build self data output_path = Return value written →
  let story := challan_story self data in
  (∀ field, field ∈ required_fields →
     ∃ v, data !! field = Some v ∧ printed v story) ∧
  head story = Some (Paragraph (CText (upper (title self))) "CustomTitle") ∧
  (Paragraph (CText "Notes:") "FieldLabel" ∈ story ↔
   Py.truthy (get data "notes" VNone) = true) ∧
  ((value = Some (build story) ∧ written = None ∧
    (output_path = None ∨ output_path = Some "")) ∨
   (∃ path, output_path = Some path ∧ path ≠ "" ∧
            value = None ∧ written = Some (path, build story))).
Proof.
  intros _ Hrun story. unfold generate_challan_pdf in Hrun.
  destruct (forallb (contains data) required_fields) eqn:Hall;
    [|discriminate]. simpl in Hrun.
  split_and!.
  - intros field Hin. apply challan_fields_printed; [done|].
    by apply (contains_is_Some data required_fields).
  - reflexivity.
  - unfold story, challan_story, _create_amount_section.
    destruct (Py.truthy (get data "notes" VNone)); simpl.
    + split; [done|]. intros _.
      repeat first [apply list_elem_of_here | apply list_elem_of_further].
    + split; [|done]. intros Hin.
      repeat (apply elem_of_cons in Hin as [Hin|Hin]; [discriminate|]).
      by apply elem_of_nil in Hin.
  - destruct output_path as [path|].
    + destruct (String.eqb_spec path "") as [->|Hne]; simpl in Hrun;
        injection Hrun as <- <-.
      * left. split_and!; [done|done|by right].
      * right. by exists path.
    + injection Hrun as <- <-. left. split_and!; [done|done|by left].
Qed.

(** [generate_receipt_pdf] raises [ValueError] with one fixed message,
    which lists the seven required keys of a receipt, when one of them is
    missing.  When it returns, the value of each required field is
    printed in a table of the receipt, the receipt ends with the line
    that carries the time of generation, and the document is either
    returned as bytes or written to the output path, never both. *)
Theorem receipt_document_content (self : PDFGenerator)
    (data : gmap string pyval) (output_path : option string)
    (now : datetime) :
  let story := receipt_story self data now in
  ((∃ field, field ∈ receipt_required_fields ∧ data !! field = None) →
   generate_receipt_pdf build self data output_path now
   = RaiseValueError missing_receipt_fields_message) ∧
  (∀ value written,
     generate_receipt_pdf build self data output_path now
     = Return value written →
     (∀ field, field ∈ receipt_required_fields →
        ∃ v, data !! field = Some v ∧ printed v story) ∧
     last story
     = Some (Paragraph
               (CText ("Generated on " +:+ Py.strftime_Ymd_HMS now +:+
                       " | Please retain this receipt for your records"))
               "Normal") ∧
     ((value = Some (build story) ∧ written = None ∧
       (output_path = None ∨ output_path = Some "")) ∨
      (∃ path, output_path = Some path ∧ path ≠ "" ∧
               value = None ∧ written = Some (path, build story)))).
Proof.
  intros story. split.
  - intros (field & Hin & Hnone). unfold generate_receipt_pdf.
    destruct (forallb (contains data) receipt_required_fields) eqn:Hall;
      [|reflexivity].
    destruct (contains_is_Some data _ field Hall Hin) as [v Hv]. congruence.
  - intros value written Hrun. unfold generate_receipt_pdf in Hrun.
    destruct (forallb (contains data) receipt_required_fields) eqn:Hall;
      [|discriminate]. simpl in Hrun.
    split_and!.
    + intros field Hin. apply receipt_fields_printed; [done|].
      by apply (contains_is_Some data receipt_required_fields).
    + reflexivity.
    + destruct output_path as [path|].
      * destruct (String.eqb_spec path "") as [->|Hne]; simpl in Hrun;
          injection Hrun as <- <-.
        -- left. split_and!; [done|done|by right].
        -- right. by exists path.
      * injection Hrun as <- <-. left. split_and!; [done|done|by left].
Qed.

End with_layout.

End Content.

Section ContentInstances.
Import Spec.
Import Pdf Samples.
Local Open Scope string_scope.
Local Open Scope list_scope.

(** The amount and the vehicle number of a complete challan are printed,
    and the document is returned. *)
Lemma challan_document_content_witness :
  printed (VInt 500) (challan_story generator complete_challan) ∧
  printed (VStr "MH12AB1234") (challan_story generator complete_challan) ∧
  generate_challan_pdf header_only generator complete_challan None
  = Return (Some (header_only (challan_story generator complete_challan)))
           None.
Proof.
  destruct (challan_document_content header_only generator complete_challan
              None _ _ eq_refl eq_refl) as (Hprinted & _ & _ & _).
  split_and!.
  - destruct (Hprinted "amount") as (v & Hv & Hp).
    + unfold required_fields. do 5 right. left.
    + vm_compute in Hv. injection Hv as <-. exact Hp.
  - destruct (Hprinted "vehicle_number") as (v & Hv & Hp).
    + unfold required_fields. do 2 right. left.
    + vm_compute in Hv. injection Hv as <-. exact Hp.
  - reflexivity.
Defined.

End ContentInstances.

(** ** Cleaning and validating plate texts *)

Section PlateText.
Import Spec.
Import Plate.
Local Open Scope string_scope.
Local Open Scope list_scope.

Lemma append_nil_r (s : string) : s +:+ "" = s.
Proof.
  induction s as [|c s IH]; [done|].
  change (String c s +:+ "") with (String c (s +:+ "")). by rewrite IH.
Qed.

Lemma append_assoc (a b c : string) : (a +:+ b) +:+ c = a +:+ (b +:+ c).
Proof.
  induction a as [|x a IH]; [done|].
  change (String x (a +:+ b) +:+ c = String x (a +:+ (b +:+ c))).
  change (String x ((a +:+ b) +:+ c) = String x (a +:+ (b +:+ c))).
  by rewrite IH.
Qed.

Lemma every_app p (a b : string) :
  every p (a +:+ b) = every p a && every p b.
Proof.
  induction a as [|x a IH]; [done|].
  change (String x a +:+ b) with (String x (a +:+ b)). simpl.
  by rewrite IH, andb_assoc.
Qed.

(** *** [split] and [join] *)

Lemma split_from_word (w acc rest : string) :
  every (λ c, negb (isspace c)) w = true →
  split_from acc (w +:+ rest) = split_from (acc +:+ w) rest.
Proof.
  revert acc. induction w as [|c w IH]; intros acc Hw.
  - by rewrite append_nil_r.
  - simpl in Hw. apply andb_true_iff in Hw as [Hc Hw].
    apply negb_true_iff in Hc.
    change (String c w +:+ rest) with (String c (w +:+ rest)). simpl.
    rewrite Hc, (IH _ Hw), append_assoc. done.
Qed.

Lemma split_from_end (w : string) : w ≠ "" → split_from w "" = [w].
Proof. by destruct w. Qed.

Lemma split_from_space (w rest : string) :
  w ≠ "" → split_from w (String " " rest) = w :: split_from "" rest.
Proof. by destruct w. Qed.

(** Splitting the words joined by single spaces gives the words back. *)
Lemma split_join (ws : list string) :
  Forall is_word ws → split (Pdf.join " " ws) = ws.
Proof.
  unfold split. induction 1 as [|w ws [Hne Hw] Hws IH]; [done|].
  destruct ws as [|w2 ws].
  - simpl. rewrite <- (append_nil_r w) at 1.
    rewrite (split_from_word w "" "" Hw). by apply split_from_end.
  - change (Pdf.join " " (w :: w2 :: ws))
      with (w +:+ " " +:+ Pdf.join " " (w2 :: ws)).
    rewrite (split_from_word w "" _ Hw).
    change ("" +:+ w) with w.
    change (" " +:+ Pdf.join " " (w2 :: ws))
      with (String " " (Pdf.join " " (w2 :: ws))).
    rewrite split_from_space by done. by rewrite IH.
Qed.

Lemma split_from_words (text acc : string) :
  every (λ c, negb (isspace c)) acc = true →
  Forall is_word (split_from acc text).
Proof.
  revert acc. induction text as [|c text IH]; intros acc Hacc; simpl.
  - destruct acc; [constructor|]. by repeat constructor.
  - destruct (isspace c) eqn:Hc.
    + destruct acc; [by apply IH|].
      constructor; [done|by apply IH].
    + apply IH. rewrite every_app, Hacc. simpl. by rewrite Hc.
Qed.

Lemma split_from_every p (text acc : string) :
  every p acc = true → every p text = true →
  Forall (λ w, every p w = true) (split_from acc text).
Proof.
  revert acc. induction text as [|c text IH]; intros acc Hacc Ht; simpl.
  - destruct acc; [constructor|]. by repeat constructor.
  - simpl in Ht. apply andb_true_iff in Ht as [Hc Ht].
    destruct (isspace c).
    + destruct acc; [by apply IH|]. constructor; [done|by apply IH].
    + apply IH; [|done]. rewrite every_app, Hacc. simpl. by rewrite Hc.
Qed.

Lemma join_every p (ws : list string) :
  p " "%char = true → Forall (λ w, every p w = true) ws →
  every p (Pdf.join " " ws) = true.
Proof.
  intros Hsp. induction 1 as [|w ws Hw Hws IH]; [done|].
  destruct ws as [|w2 ws]; [done|].
  change (Pdf.join " " (w :: w2 :: ws))
    with (w +:+ " " +:+ Pdf.join " " (w2 :: ws)).
  rewrite !every_app, Hw, IH. simpl. by rewrite Hsp.
Qed.

Lemma join_nonempty (w : string) (ws : list string) :
  w ≠ "" → Pdf.join " " (w :: ws) ≠ "".
Proof.
  intros Hw. destruct ws as [|w2 ws]; [done|].
  change (Pdf.join " " (w :: w2 :: ws))
    with (w +:+ " " +:+ Pdf.join " " (w2 :: ws)).
  by destruct w.
Qed.

(** *** [strip] *)

Lemma lstrip_fixed (s : string) : no_space (first_char s) → lstrip s = s.
Proof.
  destruct s as [|c s]; [done|]. intros Hc. simpl.
  by rewrite (Hc c eq_refl).
Qed.

Lemma rstrip_fixed (s : string) : no_space (last_char s) → rstrip s = s.
Proof.
  induction s as [|c s IH]; [done|]. intros Hlast.
  destruct s as [|c' s].
  - simpl. by rewrite (Hlast c eq_refl).
  - change (rstrip (String c (String c' s)))
      with (match rstrip (String c' s) with
            | "" => if isspace c then "" else String c ""
            | rest => String c rest
            end).
    by rewrite IH.
Qed.

Lemma first_char_lstrip (s : string) : no_space (first_char (lstrip s)).
Proof.
  induction s as [|c s IH]; [by intros ?|]. simpl.
  destruct (isspace c) eqn:Hc; [done|]. by intros x [= <-].
Qed.

Lemma last_char_rstrip (s : string) : no_space (last_char (rstrip s)).
Proof.
  induction s as [|c s IH]; [by intros ?|]. simpl.
  destruct (rstrip s) as [|c' r] eqn:Hr.
  - destruct (isspace c) eqn:Hc; [by intros ?|]. by intros x [= <-].
  - exact IH.
Qed.

Lemma last_char_lstrip (s : string) :
  no_space (last_char s) → no_space (last_char (lstrip s)).
Proof.
  induction s as [|c s IH]; [done|]. intros Hlast. simpl.
  destruct (isspace c) eqn:Hc; [|done].
  apply IH. destruct s as [|c' s]; [by intros ?|]. exact Hlast.
Qed.

Lemma every_lstrip p (s : string) :
  every p s = true → every p (lstrip s) = true.
Proof.
  induction s as [|c s IH]; [done|]. simpl. intros Hs.
  destruct (isspace c); [|done].
  apply andb_true_iff in Hs as [_ Hs]. by apply IH.
Qed.

Lemma every_rstrip p (s : string) :
  every p s = true → every p (rstrip s) = true.
Proof.
  induction s as [|c s IH]; [done|]. simpl. intros Hs.
  apply andb_true_iff in Hs as [Hc Hs]. specialize (IH Hs).
  destruct (rstrip s) as [|c' r].
  - destruct (isspace c); [done|]. simpl. by rewrite Hc.
  - simpl in *. by rewrite Hc, IH.
Qed.

Lemma strip_stripped (s : string) :
  no_space (first_char (strip s)) ∧ no_space (last_char (strip s)).
Proof.
  unfold strip. split; [apply first_char_lstrip|].
  apply last_char_lstrip, last_char_rstrip.
Qed.

Lemma strip_fixed (s : string) :
  no_space (first_char s) → no_space (last_char s) → strip s = s.
Proof.
  intros Hf Hl. unfold strip. by rewrite (rstrip_fixed s Hl), lstrip_fixed.
Qed.

Lemma strip_strip (s : string) : strip (strip s) = strip s.
Proof. apply strip_fixed; apply strip_stripped. Qed.

Lemma last_char_app (a b : string) :
  b ≠ "" → last_char (a +:+ b) = last_char b.
Proof.
  intros Hb. induction a as [|c a IH]; [done|].
  change (String c a +:+ b) with (String c (a +:+ b)).
  destruct (a +:+ b) as [|c' r] eqn:E.
  - destruct a; [|done]. by destruct b.
  - simpl. rewrite <- IH. done.
Qed.

Lemma every_last p (s : string) :
  every p s = true → ∀ x, last_char s = Some x → p x = true.
Proof.
  induction s as [|c s IH]; [done|]. simpl. intros Hs x.
  apply andb_true_iff in Hs as [Hc Hs].
  destruct s as [|c' s]; [by intros [= <-]|]. by apply IH.
Qed.

(** Words joined by single spaces have no white space at their ends. *)
Lemma join_stripped (ws : list string) :
  Forall is_word ws →
  no_space (first_char (Pdf.join " " ws)) ∧
  no_space (last_char (Pdf.join " " ws)).
Proof.
  induction 1 as [|w ws [Hne Hw] Hws [_ IH]]; [by split; intros ?|].
  destruct ws as [|w2 ws].
  - simpl. split.
    + destruct w as [|c w]; [done|]. simpl in *.
      apply andb_true_iff in Hw as [Hc _]. apply negb_true_iff in Hc.
      by intros x [= <-].
    + intros x Hx. apply negb_true_iff.
      by apply (every_last (λ c, negb (isspace c)) w Hw).
  - change (Pdf.join " " (w :: w2 :: ws))
      with (w +:+ " " +:+ Pdf.join " " (w2 :: ws)).
    split.
    + destruct w as [|c w]; [done|]. simpl in *.
      apply andb_true_iff in Hw as [Hc _]. apply negb_true_iff in Hc.
      by intros x [= <-].
    + rewrite last_char_app by done.
      change (" " +:+ Pdf.join " " (w2 :: ws))
        with ("" +:+ String " " (Pdf.join " " (w2 :: ws))).
      change ("" +:+ String " " (Pdf.join " " (w2 :: ws)))
        with (String " " "" +:+ Pdf.join " " (w2 :: ws)).
      rewrite last_char_app; [exact IH|].
      apply join_nonempty. by inversion Hws as [|?? [? _]].
Qed.

Lemma single_spaced_cons (c : ascii) (s : string) :
  c ≠ " "%char → single_spaced (String c s) = single_spaced s.
Proof.
  intros Hc. destruct c as [[] [] [] [] [] [] [] []]; try done.
Qed.

Lemma single_spaced_space (s : string) :
  no_space (first_char s) → single_spaced (String " " s) = single_spaced s.
Proof.
  destruct s as [|c s]; [done|]. intros Hc. specialize (Hc c eq_refl).
  destruct c as [[] [] [] [] [] [] [] []]; try done.
Qed.

Lemma single_spaced_word (w rest : string) :
  every (λ c, negb (isspace c)) w = true →
  single_spaced (w +:+ rest) = single_spaced rest.
Proof.
  induction w as [|c w IH]; [done|]. intros Hw. simpl in Hw.
  apply andb_true_iff in Hw as [Hc Hw].
  change (String c w +:+ rest) with (String c (w +:+ rest)).
  rewrite single_spaced_cons; [by apply IH|]. by intros ->.
Qed.

(** Words joined by single spaces have no two spaces in a row. *)
Lemma join_single_spaced (ws : list string) :
  Forall is_word ws → single_spaced (Pdf.join " " ws) = true.
Proof.
  induction 1 as [|w ws [Hne Hw] Hws IH]; [done|].
  destruct ws as [|w2 ws].
  - simpl. rewrite <- (append_nil_r w). by rewrite single_spaced_word.
  - change (Pdf.join " " (w :: w2 :: ws))
      with (w +:+ String " " (Pdf.join " " (w2 :: ws))).
    rewrite single_spaced_word by done.
    rewrite single_spaced_space; [done|]. by apply join_stripped.
Qed.

(** *** [upper] and the filter *)

Lemma upper_allowed (c : ascii) : allowed c = true → Pdf.upper_char c = c.
Proof.
  destruct c as [[] [] [] [] [] [] [] []]; vm_compute; done.
Qed.

Lemma upper_fixed (s : string) : every allowed s = true → Pdf.upper s = s.
Proof.
  induction s as [|c s IH]; [done|]. simpl. intros Hs.
  apply andb_true_iff in Hs as [Hc Hs].
  by rewrite (upper_allowed c Hc), IH.
Qed.

Lemma filter_chars_every p (s : string) : every p (filter_chars p s) = true.
Proof.
  induction s as [|c s IH]; [done|]. simpl.
  destruct (p c) eqn:Hc; [|done]. simpl. by rewrite Hc.
Qed.

Lemma filter_chars_fixed p (s : string) :
  every p s = true → filter_chars p s = s.
Proof.
  induction s as [|c s IH]; [done|]. simpl. intros Hs.
  apply andb_true_iff in Hs as [Hc Hs]. by rewrite Hc, IH.
Qed.

Lemma clean_plate_text_run (text : string) :
  clean_plate_text text
  = strip (filter_chars allowed (Pdf.upper (Pdf.join " " (split text)))).
Proof. reflexivity. Qed.

(** On a text of allowed characters cleaning is the collapsing of the
    white space. *)
Lemma clean_allowed (text : string) :
  every allowed text = true →
  clean_plate_text text = Pdf.join " " (split text).
Proof.
  intros Ht. rewrite clean_plate_text_run.
  assert (Hj : every allowed (Pdf.join " " (split text)) = true).
  { apply join_every; [done|]. by apply split_from_every. }
  rewrite (upper_fixed _ Hj), (filter_chars_fixed _ _ Hj).
  apply strip_fixed; apply join_stripped; by apply split_from_words.
Qed.

Lemma clean_every_allowed (text : string) :
  every allowed (clean_plate_text text) = true.
Proof.
  rewrite clean_plate_text_run. unfold strip.
  apply every_lstrip, every_rstrip, filter_chars_every.
Qed.

Lemma allowed_no_lowercase (s : string) :
  every allowed s = true →
  any (λ c, isalpha c && negb (Ascii.eqb (Pdf.upper_char c) c)) s = false.
Proof.
  induction s as [|c s IH]; [done|]. simpl. intros Hs.
  apply andb_true_iff in Hs as [Hc Hs].
  rewrite (upper_allowed c Hc), Ascii.eqb_refl, andb_false_r. simpl.
  by apply IH.
Qed.

(** For a text of ASCII characters, the cleaned text has only capital
    letters, digits, spaces and hyphens, and neither begins nor ends with
    a space, so that stripping it again changes nothing. *)
Theorem clean_plate_text_output (text : string) :
  ascii_text text →
  let cleaned := clean_plate_text text in
  every allowed cleaned = true ∧
  first_char cleaned ≠ Some " "%char ∧
  last_char cleaned ≠ Some " "%char ∧
  strip cleaned = cleaned ∧
  any (λ c, isalpha c && negb (Ascii.eqb (Pdf.upper_char c) c)) cleaned
  = false.
Proof.
  intros _ cleaned. unfold cleaned.
  assert (Hall := clean_every_allowed text).
  rewrite clean_plate_text_run in *.
  destruct (strip_stripped
              (filter_chars allowed (Pdf.upper (Pdf.join " " (split text)))))
    as [Hf Hl].
  split_and!.
  - exact Hall.
  - intros Hsp. by specialize (Hf _ Hsp).
  - intros Hsp. by specialize (Hl _ Hsp).
  - apply strip_strip.
  - by apply allowed_no_lowercase.
Qed.

(** For a text of ASCII characters: cleaning is not idempotent, as a
    character that is removed between two spaces leaves both of them;
    but cleaning a cleaned text only collapses these spaces, and the
    result of that has no two spaces in a row and is stable. *)
Theorem clean_plate_text_settles (text : string) :
  ascii_text text →
  let once := clean_plate_text text in
  let twice := clean_plate_text once in
  twice = Pdf.join " " (split once) ∧
  single_spaced twice = true ∧
  clean_plate_text twice = twice ∧
  clean_plate_text "MH 12 # AB" = "MH 12  AB" ∧
  clean_plate_text "MH 12  AB" = "MH 12 AB".
Proof.
  intros _ once twice.
  assert (Htwice : twice = Pdf.join " " (split once)).
  { apply clean_allowed, clean_every_allowed. }
  split_and!; [exact Htwice | | | reflexivity | reflexivity].
  { rewrite Htwice. by apply join_single_spaced, split_from_words. }
  rewrite clean_allowed by apply clean_every_allowed.
  fold once. fold twice. rewrite Htwice at 1.
  rewrite split_join; [by rewrite Htwice|].
  by apply split_from_words.
Qed.

(** *** Validation *)

Lemma lstrip_empty (s : string) :
  lstrip s = "" ↔ any (λ c, negb (isspace c)) s = false.
Proof.
  induction s as [|c s IH]; [done|]. simpl.
  destruct (isspace c); simpl; [exact IH|]. split; done.
Qed.

Lemma rstrip_empty (s : string) :
  rstrip s = "" ↔ any (λ c, negb (isspace c)) s = false.
Proof.
  induction s as [|c s IH]; [done|]. simpl.
  destruct (rstrip s) as [|c' r].
  - rewrite (proj1 IH eq_refl), orb_false_r.
    destruct (isspace c); simpl; split; done.
  - destruct (any (λ c, negb (isspace c)) s).
    + rewrite orb_true_r. split; done.
    + discriminate (proj2 IH eq_refl).
Qed.

Lemma any_rstrip (s : string) :
  any (λ c, negb (isspace c)) (rstrip s) = any (λ c, negb (isspace c)) s.
Proof.
  induction s as [|c s IH]; [done|]. simpl.
  destruct (rstrip s) as [|c' r] eqn:Hr.
  - rewrite (proj1 (rstrip_empty s) Hr), orb_false_r.
    destruct (isspace c) eqn:Hc; simpl; rewrite ?Hc; done.
  - simpl in *. by rewrite IH.
Qed.

Lemma strip_empty (s : string) :
  strip s = "" ↔ any (λ c, negb (isspace c)) s = false.
Proof. unfold strip. by rewrite lstrip_empty, any_rstrip. Qed.

Lemma length_lstrip (s : string) :
  (String.length (lstrip s) ≤ String.length s)%nat.
Proof.
  induction s as [|c s IH]; [done|]. simpl.
  destruct (isspace c); simpl; lia.
Qed.

Lemma length_rstrip (s : string) :
  (String.length (rstrip s) ≤ String.length s)%nat.
Proof.
  induction s as [|c s IH]; [done|]. simpl.
  destruct (rstrip s) as [|c' r]; [destruct (isspace c)|]; simpl in *; lia.
Qed.

Lemma length_strip (s : string) :
  (String.length (strip s) ≤ String.length s)%nat.
Proof.
  unfold strip. pose proof (length_lstrip (rstrip s)).
  pose proof (length_rstrip s). lia.
Qed.

(** For a text of ASCII characters: a text that is valid as an Indian
    plate is valid for every country; the white space around a text
    makes no difference; for a country other than ['IN'] a text is valid
    exactly when it has a character that is not white space; and a text
    valid as an Indian plate has at least eight characters, a digit and a
    letter among them. *)
Theorem validate_plate_format_rules (text country : string) :
  ascii_text text →
  (validate_plate_format text "IN" = true →
   validate_plate_format text country = true) ∧
  validate_plate_format (strip text) country
  = validate_plate_format text country ∧
  (country ≠ "IN" →
   validate_plate_format text country
   = any (λ c, negb (isspace c)) text) ∧
  (validate_plate_format text "IN" = true →
   (8 ≤ String.length text)%nat ∧
   any isdigit text = true ∧ any isalpha text = true).
Proof.
  intros _.
  assert (Hlen : ∀ s, (0 <? String.length (strip s))%nat
                      = any (λ c, negb (isspace c)) s).
  { intros s. pose proof (strip_empty s) as He.
    destruct (strip s) as [|c r]; simpl.
    - symmetry. by apply He.
    - destruct (any _ s); [done|]. discriminate (proj2 He eq_refl). }
  assert (Hany : ∀ p s, any p (strip s) = true → any p s = true).
  { intros p s. unfold strip. intros H.
    assert (Hl : ∀ t, any p (lstrip t) = true → any p t = true).
    { induction t as [|c t IH]; [done|]. simpl.
      destruct (isspace c); [|done]. intros Ht.
      by rewrite (IH Ht), orb_true_r. }
    assert (Hr : ∀ t, any p (rstrip t) = true → any p t = true).
    { induction t as [|c t IH]; [done|]. simpl.
      destruct (rstrip t) as [|c' r].
      - destruct (isspace c); [done|]. simpl. rewrite orb_false_r.
        intros ->. done.
      - simpl in *. destruct (p c); [done|]. simpl. exact IH. }
    by apply Hr, Hl. }
  unfold validate_plate_format. rewrite strip_strip. split_and!.
  - change (String.eqb "IN" "IN") with true. cbv iota. intros Hin.
    destruct (String.eqb country "IN"); [exact Hin|].
    destruct (String.length (strip text) <? 8)%nat eqn:Hl; [done|].
    apply Nat.ltb_ge in Hl. apply Nat.ltb_lt. lia.
  - done.
  - intros Hc. apply String.eqb_neq in Hc. rewrite Hc. apply Hlen.
  - change (String.eqb "IN" "IN") with true. cbv iota.
    destruct (String.length (strip text) <? 8)%nat eqn:Hl; [done|].
    apply Nat.ltb_ge in Hl. pose proof (length_strip text).
    intros [Hd Ha]%andb_true_iff. split_and!; [lia| |]; by apply Hany.
Qed.

End PlateText.

Section PlateTextInstances.
Import Spec.
Import Plate.
Local Open Scope string_scope.
Local Open Scope list_scope.

(** Text as the reader returns it, with white space around it, a small
    letter and a full stop. *)
Lemma clean_plate_text_output_witness :
  clean_plate_text "  mh 12.AB   1234 " = "MH 12AB 1234" ∧
  every allowed (clean_plate_text "  mh 12.AB   1234 ") = true ∧
  strip (clean_plate_text "  mh 12.AB   1234 ")
  = clean_plate_text "  mh 12.AB   1234 ".
Proof.
  destruct (clean_plate_text_output "  mh 12.AB   1234 ")
    as (Hall & _ & _ & Hstrip & _); [reflexivity|].
  split_and!; [reflexivity | exact Hall | exact Hstrip].
Defined.

Lemma clean_plate_text_settles_witness :
  clean_plate_text "MH 12 # AB" = "MH 12  AB" ∧
  clean_plate_text (clean_plate_text "MH 12 # AB") = "MH 12 AB" ∧
  clean_plate_text (clean_plate_text (clean_plate_text "MH 12 # AB"))
  = clean_plate_text (clean_plate_text "MH 12 # AB").
Proof.
  destruct (clean_plate_text_settles "MH 12 # AB")
    as (_ & _ & Hstable & _ & _); [reflexivity|].
  split_and!; [reflexivity | reflexivity | exact Hstable].
Defined.

Lemma validate_plate_format_rules_witness :
  validate_plate_format " MH12AB1234 " "IN" = true ∧
  validate_plate_format " MH12AB1234 " "US" = true ∧
  validate_plate_format "MH12AB1234" "IN"
  = validate_plate_format " MH12AB1234 " "IN".
Proof.
  destruct (validate_plate_format_rules " MH12AB1234 " "US")
    as (Hany & _); [reflexivity|].
  destruct (validate_plate_format_rules " MH12AB1234 " "IN")
    as (_ & Hstrip & _); [reflexivity|].
  split_and!; [reflexivity | by apply Hany | exact Hstrip].
Defined.

End PlateTextInstances.
